(** * The libkv meta-plugin (plugins/meta/libkv/libkv.go)

    A shallow embedding of the plugin's two commands, [cmdAdd] and [cmdDel],
    and of the helpers they call.  The plugin reads its own configuration,
    fetches a JSON array of network configurations from a key/value store,
    keeps a copy of the fetched bytes in a scratch file and delegates the
    entries, one after the other, to the plugins they name.

    The libraries the plugin calls (encoding/json, docker/libkv, pkg/invoke,
    the operating system) are collected in the class [Host]; the plugin's own
    code is written over an arbitrary host, in a monad that threads the
    scratch directory and the state of the delegated plugins, records the
    calls made to the outside, and distinguishes a returned value from a
    run-time panic and from a process exit. *)

From Stdlib Require Import ZArith String Ascii List Lia DecimalString.
From stdpp Require Import gmap strings list sorting.

#[local] Set Warnings "-register-all".

(** ** Go data *)

(** [[]byte] *)
Abbreviation bytes := (list Byte.byte).

(** A Go [error] value, by its message; the nil error is [None] of
    [option error]. *)
Definition error : Type := string.

(** The pair [(T, error)] returned by a fallible Go function. *)
Inductive err_or (A : Type) : Type :=
| Got (a : A)
| Failed (err : error).
Arguments Got {A} a.
Arguments Failed {A} err.

(** What encoding/json stores into an [interface{}]: nil, bool, float64
    (kept as the literal it was read from), string, [[]interface{}] and
    [map[string]interface{}]. *)
Inductive value : Type :=
| VNil
| VBool (b : bool)
| VNumber (lit : string)
| VString (s : string)
| VSlice (l : list value)
| VMap (m : gmap string value).

(** One element of [netconfs], a [map[string]interface{}].  A nil map (the
    element [null]) reads like the empty map; the two differ in what
    [json.Marshal] writes for them, which the plugin never uses, since the
    type assertion on such an entry panics first. *)
Abbreviation NetConf := (gmap string value).

(** [store.Backend] is a string type; these are libkv's constants. *)
Definition Backend : Type := string.
Definition CONSUL : Backend := "consul".
Definition ETCD : Backend := "etcd".
Definition ZK : Backend := "zk".

(** [store.Config], with the one field the plugin sets; a [time.Duration]
    counts nanoseconds. *)
Record store_Config : Type := { ConnectionTimeout : Z }.

Definition time_Second : Z := 1000000000.

Record LibKvConf : Type := {
  StoreBackend : Backend;
  Uri : string;
  BasePath : string;
  StoreConfig : gmap string string
}.

(** [skel.CmdArgs] *)
Record CmdArgs : Type := {
  ContainerID : string;
  Netns : string;
  IfName : string;
  Args : string;
  Path : string;
  StdinData : bytes
}.

Definition stateDir : string := "/var/lib/cni/libkv".

(** The permission bits [0700] and [0600]. *)
Definition mode_0700 : Z := 448.
Definition mode_0600 : Z := 384.

(** ** Strings and paths *)

(** [strings.HasSuffix]:
    [len(s) >= len(suffix) && s[len(s)-len(suffix):] == suffix] *)
Definition HasSuffix (s suffix : string) : bool :=
  (String.length suffix <=? String.length s)%nat &&
  String.eqb
    (substring (String.length s - String.length suffix) (String.length suffix) s)
    suffix.

(** The [%d] verb on a slice index. *)
Definition format_d (n : nat) : string := NilZero.string_of_uint (Nat.to_uint n).

(** The elements of a path between its separators; [cur] is the element
    being read. *)
Fixpoint components (path cur : string) : list string :=
  match path with
  | EmptyString => [cur]
  | String c rest =>
      if Ascii.eqb c "/" then cur :: components rest ""
      else components rest (cur +:+ String c "")
  end.

(** One step of [filepath.Clean] on a rooted path: empty and [.] elements
    are dropped, [..] removes the element before it and is dropped at the
    root. *)
Definition clean_step (out : list string) (elem : string) : list string :=
  if String.eqb elem "" then out
  else if String.eqb elem "." then out
  else if String.eqb elem ".." then removelast out
  else out ++ [elem].

(** [filepath.Clean] for a path that starts with the separator. *)
Definition Clean (path : string) : string :=
  "/" +:+ String.concat "/" (fold_left clean_step (components path "") []).

(** [filepath.Join(dir, elem)] for a non-empty [dir]: the elements are
    joined with the separator and the result is cleaned. *)
Definition filepath_Join (dir elem : string) : string :=
  Clean (dir +:+ "/" +:+ elem).

(** The name Go prints for the dynamic type of an [interface{}] in the
    message of a failed type assertion. *)
Definition go_type_name (v : value) : string :=
  match v with
  | VNil => "nil"
  | VBool _ => "bool"
  | VNumber _ => "float64"
  | VString _ => "string"
  | VSlice _ => "[]interface {}"
  | VMap _ => "map[string]interface {}"
  end.

(** How a Go function ends: it returns, it panics, or the process exits. *)
Inductive Outcome (A : Type) : Type :=
| Returned (a : A)
| Panicked (msg : string)
| Exited (code : Z).
Arguments Returned {A} a.
Arguments Panicked {A} msg.
Arguments Exited {A} code.

(** ** The libraries behind the plugin *)

Class Host : Type := {
  (** encoding/json: [json.Unmarshal] into a fresh [LibKvConf], into a nil
      [[]map[string]interface{}], and [json.Marshal] of one map. *)
  json_Unmarshal_LibKvConf : bytes -> err_or LibKvConf;
  json_Unmarshal_netconfs : bytes -> err_or (list NetConf);
  json_Marshal : NetConf -> err_or bytes;
  (** docker/libkv: the constructor a backend registers, and [Get] of the
      store it builds ([pair.Value] on success). *)
  Store : Type;
  backend_New : Backend -> list string -> store_Config -> err_or Store;
  Store_Get : Store -> string -> err_or bytes;
  (** pkg/invoke and pkg/types: the delegated plugins act on a state of
      their own. *)
  Result : Type;
  Plugins : Type;
  DelegateAdd : string -> bytes -> Plugins -> err_or Result * Plugins;
  DelegateDel : string -> bytes -> Plugins -> option error * Plugins;
  Result_Print : option Result -> option error;
  (** os: the paths on which [os.MkdirAll] and [ioutil.WriteFile] fail. *)
  MkdirAll_fault : string -> option error;
  WriteFile_fault : string -> option error
}.

(** The calls the plugin makes to the outside, in the order it makes them;
    [Result] is the type of the results of the delegated plugins. *)
Inductive Event (Result : Type) : Type :=
| NewStoreCall (backend : Backend) (addrs : list string) (options : store_Config)
| GetCall (key : string)
| MkdirAllCall (path : string) (perm : Z)
| WriteFileCall (path : string) (data : bytes) (perm : Z)
| ReadFileCall (path : string)
| RemoveCall (path : string)
| DelegateAddCall (pluginType : string) (netconf : bytes)
| DelegateDelCall (pluginType : string) (netconf : bytes)
| PrintCall (result : option Result)
| LogFatalCall (msg : string).
Arguments NewStoreCall {Result} backend addrs options.
Arguments GetCall {Result} key.
Arguments MkdirAllCall {Result} path perm.
Arguments WriteFileCall {Result} path data perm.
Arguments ReadFileCall {Result} path.
Arguments RemoveCall {Result} path.
Arguments DelegateAddCall {Result} pluginType netconf.
Arguments DelegateDelCall {Result} pluginType netconf.
Arguments PrintCall {Result} result.
Arguments LogFatalCall {Result} msg.

(** What a command acts on: the regular files of the host, by path, and the
    state of the delegated plugins. *)
Record State (Plugins : Type) : Type := {
  files : gmap string bytes;
  plugins : Plugins
}.
Arguments Build_State {Plugins} files plugins.
Arguments files {Plugins} s.
Arguments plugins {Plugins} s.

(** The three parts of a run: how it ended, the state it left, the calls
    it made. *)
Definition outcome {A S E : Type} (r : Outcome A * S * list E) : Outcome A := r.1.1.
Definition final {A S E : Type} (r : Outcome A * S * list E) : S := r.1.2.
Definition events {A S E : Type} (r : Outcome A * S * list E) : list E := r.2.

Section Plugin.
Context `{H : Host}.

Definition M (A : Type) : Type :=
  State Plugins -> Outcome A * State Plugins * list (Event Result).

Definition ret {A} (a : A) : M A := fun s => (Returned a, s, []).

Definition bind {A B} (m : M A) (k : A -> M B) : M B :=
  fun s =>
    match m s with
    | (Returned a, s1, t1) =>
        let '(o, s2, t2) := k a s1 in (o, s2, t1 ++ t2)
    | (Panicked msg, s1, t1) => (Panicked msg, s1, t1)
    | (Exited code, s1, t1) => (Exited code, s1, t1)
    end.

Notation "'let*' x ':=' m 'in' k" := (bind m (fun x => k))
  (at level 10, x name, m at level 200, k at level 200, only parsing).

Definition emit (e : Event Result) : M unit := fun s => (Returned tt, s, [e]).
Definition panic {A} (msg : string) : M A := fun s => (Panicked msg, s, []).
Definition os_Exit {A} (code : Z) : M A := fun s => (Exited code, s, []).


(** *** Library calls, as actions *)

(** [init] registers three backends with libkv. *)
Definition init : list Backend := [CONSUL; ETCD; ZK].

(** [libkv.NewStore]: the constructor registered for the backend, or an
    error when none is. *)
Definition libkv_NewStore (backend : Backend) (addrs : list string)
    (options : store_Config) : M (err_or Store) :=
  let* _ := emit (NewStoreCall backend addrs options) in
  ret (if bool_decide (backend ∈ init) then backend_New backend addrs options
       else Failed "Backend storage not supported yet, please choose one of").

Definition kv_Get (kv : Store) (key : string) : M (err_or bytes) :=
  let* _ := emit (GetCall key) in ret (Store_Get kv key).

Definition os_MkdirAll (path : string) (perm : Z) : M (option error) :=
  let* _ := emit (MkdirAllCall path perm) in ret (MkdirAll_fault path).

Definition ioutil_WriteFile (path : string) (data : bytes) (perm : Z)
    : M (option error) :=
  let* _ := emit (WriteFileCall path data perm) in
  match WriteFile_fault path with
  | Some err => ret (Some err)
  | None =>
      fun s => (Returned None,
                {| files := <[path := data]> (files s); plugins := plugins s |}, [])
  end.

Definition ioutil_ReadFile (path : string) : M (err_or bytes) :=
  let* _ := emit (ReadFileCall path) in
  fun s =>
    match files s !! path with
    | Some data => (Returned (Got data), s, [])
    | None =>
        (Returned (Failed ("open " +:+ path +:+ ": no such file or directory")),
         s, [])
    end.

(** [os.Remove], whose error the plugin drops. *)
Definition os_Remove (path : string) : M unit :=
  let* _ := emit (RemoveCall path) in
  fun s =>
    (Returned tt, {| files := delete path (files s); plugins := plugins s |}, []).

Definition invoke_DelegateAdd (pluginType : string) (netconf : bytes)
    : M (err_or Result) :=
  let* _ := emit (DelegateAddCall pluginType netconf) in
  fun s =>
    let '(r, p) := DelegateAdd pluginType netconf (plugins s) in
    (Returned r, {| files := files s; plugins := p |}, []).

Definition invoke_DelegateDel (pluginType : string) (netconf : bytes)
    : M (option error) :=
  let* _ := emit (DelegateDelCall pluginType netconf) in
  fun s =>
    let '(r, p) := DelegateDel pluginType netconf (plugins s) in
    (Returned r, {| files := files s; plugins := p |}, []).

Definition print (result : option Result) : M (option error) :=
  let* _ := emit (PrintCall result) in ret (Result_Print result).

(** [log.Fatal(v...)]: the operands are printed one after the other (no
    formatting verb is expanded), then the process exits with status 1. *)
Definition log_Fatal {A} (msg : string) : M A :=
  let* _ := emit (LogFatalCall msg) in os_Exit 1.

(** The type assertion [conf["type"].(string)]: a missing key reads as the
    nil interface, and anything but a string panics. *)
Definition assert_string (v : option value) : M string :=
  match v with
  | Some (VString s) => ret s
  | Some v' =>
      panic ("interface conversion: interface {} is " +:+ go_type_name v'
             +:+ ", not string")
  | None => panic "interface conversion: interface {} is nil, not string"
  end.

(** *** The plugin *)

Definition loadPluginConfig (data : bytes) : err_or LibKvConf :=
  match json_Unmarshal_LibKvConf data with
  | Failed err => Failed ("failed to load libkv config: " +:+ err)
  | Got config =>
      if negb (HasSuffix (BasePath config) "/") then
        Got {| StoreBackend := StoreBackend config;
               Uri := Uri config;
               BasePath := BasePath config +:+ "/";
               StoreConfig := StoreConfig config |}
      else Got config
  end.

Definition saveScratchNetConf (containerID : string) (netconf : bytes)
    : M (option error) :=
  let* err := os_MkdirAll stateDir mode_0700 in
  match err with
  | Some e => ret (Some e)
  | None =>
      let path := filepath_Join stateDir containerID in
      ioutil_WriteFile path netconf mode_0600
  end.

(** The deferred [os.Remove] runs once [ioutil.ReadFile] has returned. *)
Definition consumeScratchNetConf (containerID : string) : M (err_or bytes) :=
  let path := filepath_Join stateDir containerID in
  let* r := ioutil_ReadFile path in
  let* _ := os_Remove path in
  ret r.

(** The loop of [cmdAdd] from position [index] on; [result] is the variable
    of that name.  [Failed] is a [return] with an error from inside the
    loop. *)
Fixpoint addLoop (index : nat) (netconfs : list NetConf) (result : option Result)
    : M (err_or (option Result)) :=
  match netconfs with
  | [] => ret (Got result)
  | conf :: rest =>
      match json_Marshal conf with
      | Failed err =>
          ret (Failed ("Could not marshal subconfig at index " +:+ format_d index
                       +:+ ": " +:+ err))
      | Got confBytes =>
          let* pluginType := assert_string (conf !! "type") in
          let* r := invoke_DelegateAdd pluginType confBytes in
          match r with
          | Failed err => ret (Failed err)
          | Got res =>
              (* The first configuration in the array is the management interface *)
              addLoop (S index) rest (if (index =? 0)%nat then Some res else result)
          end
      end
  end.

Definition cmdAdd (args : CmdArgs) : M (option error) :=
  match loadPluginConfig (StdinData args) with
  | Failed err => ret (Some err)
  | Got config =>
      let* kv := libkv_NewStore (StoreBackend config) [Uri config]
                   {| ConnectionTimeout := 10 * time_Second |} in
      match kv with
      | Failed _ => log_Fatal ("Cannot create %s store" +:+ StoreBackend config)
      | Got kv =>
          let key := BasePath config +:+ ContainerID args in
          let* pair := kv_Get kv key in
          match pair with
          | Failed _ =>
              ret (Some ("Error trying accessing value at key: " +:+ key))
          | Got pair_Value =>
              match json_Unmarshal_netconfs pair_Value with
              | Failed err =>
                  ret (Some ("Could not unmarshal store value: " +:+ err))
              | Got netconfs =>
                  let* err := saveScratchNetConf (ContainerID args) pair_Value in
                  match err with
                  | Some e =>
                      ret (Some ("Could not save generated cni configs: " +:+ e))
                  | None =>
                      let* r := addLoop 0 netconfs None in
                      match r with
                      | Failed e => ret (Some e)
                      | Got result => print result
                      end
                  end
              end
          end
      end
  end.

(** The loop of [cmdDel] from position [index] on. *)
Fixpoint delLoop (index : nat) (netconfs : list NetConf) : M (option error) :=
  match netconfs with
  | [] => ret None
  | conf :: rest =>
      match json_Marshal conf with
      | Failed err =>
          ret (Some ("Could not marshal subconfig at index " +:+ format_d index
                     +:+ ": " +:+ err))
      | Got confBytes =>
          let* pluginType := assert_string (conf !! "type") in
          let* err := invoke_DelegateDel pluginType confBytes in
          match err with
          | Some e => ret (Some e)
          | None => delLoop (S index) rest
          end
      end
  end.

Definition cmdDel (args : CmdArgs) : M (option error) :=
  let* r := consumeScratchNetConf (ContainerID args) in
  match r with
  | Failed err => ret (Some err)
  | Got netconfBytes =>
      match json_Unmarshal_netconfs netconfBytes with
      | Failed err => ret (Some ("failed to parse netconf: " +:+ err))
      | Got netconfs => delLoop 0 netconfs
      end
  end.

End Plugin.

Notation "'let*' x ':=' m 'in' k" := (bind m (fun x => k))
  (at level 10, x name, m at level 200, k at level 200, only parsing).

(** ** A host to run the plugin on

    An in-memory host for the worked examples: a JSON reader and writer, a
    store held in a finite map, and delegated plugins that keep the list of
    the networks they have attached.  The reader takes JSON text without
    [\u] escapes and matches the keys of the configuration as the struct tags
    spell them; the writer prints a number as it was read. *)
Module Demo.

Definition is_space (c : ascii) : bool :=
  Ascii.eqb c " " || Ascii.eqb c "009" || Ascii.eqb c "010" || Ascii.eqb c "013".

Fixpoint skip_space (s : string) : string :=
  match s with
  | String c rest => if is_space c then skip_space rest else s
  | EmptyString => s
  end.

Definition is_digit (c : ascii) : bool := Ascii.leb "0" c && Ascii.leb c "9".

Fixpoint read_digits (s : string) : string * string :=
  match s with
  | String c rest =>
      if is_digit c then
        let '(ds, rest') := read_digits rest in (String c ds, rest')
      else (EmptyString, s)
  | EmptyString => (EmptyString, s)
  end.

(** A number literal: an optional minus sign, an integer part without a
    leading zero, an optional fraction and an optional exponent. *)
Definition read_number (s : string) : option (string * string) :=
  let '(sign, s1) :=
    match s with
    | String c rest => if Ascii.eqb c "-" then ("-", rest) else ("", s)
    | EmptyString => ("", s)
    end in
  let '(int, s2) := read_digits s1 in
  if String.eqb int "" then None
  else if String.prefix "0" int && negb (String.eqb int "0") then None
  else
    let frac :=
      match s2 with
      | String c rest =>
          if Ascii.eqb c "." then
            let '(ds, rest') := read_digits rest in
            if String.eqb ds "" then None else Some ("." +:+ ds, rest')
          else Some ("", s2)
      | EmptyString => Some ("", s2)
      end in
    match frac with
    | None => None
    | Some (fr, s3) =>
        match s3 with
        | String c rest =>
            if Ascii.eqb c "e" || Ascii.eqb c "E" then
              let '(esign, s4) :=
                match rest with
                | String d rest' =>
                    if Ascii.eqb d "+" || Ascii.eqb d "-"
                    then (String d "", rest') else ("", rest)
                | EmptyString => ("", rest)
                end in
              let '(ds, s5) := read_digits s4 in
              if String.eqb ds "" then None
              else Some (sign +:+ int +:+ fr +:+ String c esign +:+ ds, s5)
            else Some (sign +:+ int +:+ fr, s3)
        | EmptyString => Some (sign +:+ int +:+ fr, s3)
        end
    end.

Definition unescape (c : ascii) : option ascii :=
  if Ascii.eqb c "034" || Ascii.eqb c "\" || Ascii.eqb c "/" then Some c
  else if Ascii.eqb c "b" then Some "008"%char
  else if Ascii.eqb c "f" then Some "012"%char
  else if Ascii.eqb c "n" then Some "010"%char
  else if Ascii.eqb c "r" then Some "013"%char
  else if Ascii.eqb c "t" then Some "009"%char
  else None.

(** The characters of a string literal, after its opening quote. *)
Fixpoint read_string (s : string) : option (string * string) :=
  match s with
  | EmptyString => None
  | String c rest =>
      if Ascii.eqb c "034" then Some (EmptyString, rest)
      else if Ascii.eqb c "\" then
        match rest with
        | String e rest' =>
            match unescape e, read_string rest' with
            | Some ch, Some (str, r) => Some (String ch str, r)
            | _, _ => None
            end
        | EmptyString => None
        end
      else if Ascii.ltb c " " then None
      else
        match read_string rest with
        | Some (str, r) => Some (String c str, r)
        | None => None
        end
  end.

Definition strip_prefix (p s : string) : option string :=
  if String.prefix p s
  then Some (substring (String.length p) (String.length s - String.length p) s)
  else None.

Section Reader.
Variable read_value : string -> option (value * string).

(** The elements of an array, after its opening bracket or a comma. *)
Fixpoint read_elements (n : nat) (s : string) : option (list value * string) :=
  match n with
  | O => None
  | S n' =>
      match read_value s with
      | None => None
      | Some (v, r) =>
          match skip_space r with
          | String c r' =>
              if Ascii.eqb c "]" then Some ([v], r')
              else if Ascii.eqb c "," then
                match read_elements n' r' with
                | Some (vs, r'') => Some (v :: vs, r'')
                | None => None
                end
              else None
          | EmptyString => None
          end
      end
  end.

(** The members of an object, after its opening brace or a comma. *)
Fixpoint read_members (n : nat) (s : string)
    : option (list (string * value) * string) :=
  match n with
  | O => None
  | S n' =>
      match skip_space s with
      | String q r =>
          if Ascii.eqb q "034" then
            match read_string r with
            | None => None
            | Some (key, r1) =>
                match skip_space r1 with
                | String c r2 =>
                    if Ascii.eqb c ":" then
                      match read_value r2 with
                      | None => None
                      | Some (v, r3) =>
                          match skip_space r3 with
                          | String d r4 =>
                              if Ascii.eqb d "}" then Some ([(key, v)], r4)
                              else if Ascii.eqb d "," then
                                match read_members n' r4 with
                                | Some (kvs, r5) => Some ((key, v) :: kvs, r5)
                                | None => None
                                end
                              else None
                          | EmptyString => None
                          end
                      end
                    else None
                | EmptyString => None
                end
            end
          else None
      | EmptyString => None
      end
  end.

End Reader.

(** A later member replaces an earlier one of the same key. *)
Definition map_of_members (kvs : list (string * value)) : gmap string value :=
  foldl (fun m kv => <[kv.1 := kv.2]> m) ∅ kvs.

Fixpoint read_value (fuel : nat) (s : string) : option (value * string) :=
  match fuel with
  | O => None
  | S fuel' =>
      match skip_space s with
      | EmptyString => None
      | String c r as s' =>
          if Ascii.eqb c "n" then
            match strip_prefix "ull" r with Some r' => Some (VNil, r') | None => None end
          else if Ascii.eqb c "t" then
            match strip_prefix "rue" r with
            | Some r' => Some (VBool true, r') | None => None end
          else if Ascii.eqb c "f" then
            match strip_prefix "alse" r with
            | Some r' => Some (VBool false, r') | None => None end
          else if Ascii.eqb c "034" then
            match read_string r with
            | Some (str, r') => Some (VString str, r') | None => None end
          else if Ascii.eqb c "[" then
            match skip_space r with
            | String d r' =>
                if Ascii.eqb d "]" then Some (VSlice [], r')
                else
                  match read_elements (read_value fuel') (String.length r) r with
                  | Some (vs, r'') => Some (VSlice vs, r'') | None => None end
            | EmptyString => None
            end
          else if Ascii.eqb c "{" then
            match skip_space r with
            | String d r' =>
                if Ascii.eqb d "}" then Some (VMap ∅, r')
                else
                  match read_members (read_value fuel') (String.length r) r with
                  | Some (kvs, r'') => Some (VMap (map_of_members kvs), r'')
                  | None => None end
            | EmptyString => None
            end
          else
            match read_number s' with
            | Some (lit, r') => Some (VNumber lit, r') | None => None end
      end
  end.

(** A whole JSON text: one value, with nothing but space after it. *)
Definition read_json (data : bytes) : option value :=
  let s := string_of_list_byte data in
  match read_value (S (String.length s)) s with
  | Some (v, rest) => if String.eqb (skip_space rest) "" then Some v else None
  | None => None
  end.

Definition json_kind (v : value) : string :=
  match v with
  | VNil => "null"
  | VBool _ => "bool"
  | VNumber _ => "number"
  | VString _ => "string"
  | VSlice _ => "array"
  | VMap _ => "object"
  end.

Definition type_error (v : value) (gotype : string) : error :=
  "json: cannot unmarshal " +:+ json_kind v +:+ " into Go value of type " +:+ gotype.

Definition syntax_error : error := "invalid character in JSON text".

(** *** Decoding into the plugin's types *)

Definition to_netconf (v : value) : err_or NetConf :=
  match v with
  | VMap m => Got m
  | VNil => Got ∅
  | _ => Failed (type_error v "map[string]interface {}")
  end.

Fixpoint to_netconfs (l : list value) : err_or (list NetConf) :=
  match l with
  | [] => Got []
  | v :: rest =>
      match to_netconf v, to_netconfs rest with
      | Failed err, _ => Failed err
      | Got _, Failed err => Failed err
      | Got conf, Got confs => Got (conf :: confs)
      end
  end.

(** [null] leaves a nil slice, which ranges like the empty one. *)
Definition Unmarshal_netconfs (data : bytes) : err_or (list NetConf) :=
  match read_json data with
  | None => Failed syntax_error
  | Some VNil => Got []
  | Some (VSlice l) => to_netconfs l
  | Some v => Failed (type_error v "[]map[string]interface {}")
  end.

(** A string field: an absent key and [null] leave the zero value. *)
Definition to_string (v : option value) (gotype : string) : err_or string :=
  match v with
  | None | Some VNil => Got ""
  | Some (VString s) => Got s
  | Some v' => Failed (type_error v' gotype)
  end.

Definition string_of_value (v : value) : string :=
  match v with VString s => s | _ => "" end.

Definition is_string_or_null (v : value) : bool :=
  match v with VString _ | VNil => true | _ => false end.

(** A [map[string]string] field. *)
Definition to_string_map (v : option value) : err_or (gmap string string) :=
  match v with
  | None | Some VNil => Got ∅
  | Some (VMap m) =>
      match filter (fun kv => negb (is_string_or_null kv.2)) (map_to_list m) with
      | [] => Got (string_of_value <$> m)
      | kv :: _ => Failed (type_error kv.2 "string")
      end
  | Some v' => Failed (type_error v' "map[string]string")
  end.

Definition Unmarshal_LibKvConf (data : bytes) : err_or LibKvConf :=
  match read_json data with
  | None => Failed syntax_error
  | Some VNil =>
      Got {| StoreBackend := ""; Uri := ""; BasePath := ""; StoreConfig := ∅ |}
  | Some (VMap m) =>
      match to_string (m !! "storeBackend") "store.Backend",
            to_string (m !! "uri") "string",
            to_string (m !! "basePath") "string",
            to_string_map (m !! "storeConfig") with
      | Got backend, Got uri, Got basePath, Got storeConfig =>
          Got {| StoreBackend := backend; Uri := uri; BasePath := basePath;
                 StoreConfig := storeConfig |}
      | Failed err, _, _, _ => Failed err
      | _, Failed err, _, _ => Failed err
      | _, _, Failed err, _ => Failed err
      | _, _, _, Failed err => Failed err
      end
  | Some v => Failed (type_error v "main.LibKvConf")
  end.

(** *** Writing *)

Definition hex_digit (n : nat) : ascii :=
  ascii_of_nat (if (n <? 10)%nat then 48 + n else 87 + n).

(** A string literal as [json.Marshal] writes it: the quote, the backslash
    and control characters are escaped, and so are [<], [>] and [&]. *)
Fixpoint escape (s : string) : string :=
  match s with
  | EmptyString => EmptyString
  | String c rest =>
      (if Ascii.eqb c "034" then "\" +:+ String c ""
       else if Ascii.eqb c "\" then "\\"
       else if Ascii.eqb c "010" then "\n"
       else if Ascii.eqb c "013" then "\r"
       else if Ascii.eqb c "009" then "\t"
       else if Ascii.ltb c " " || Ascii.eqb c "<" || Ascii.eqb c ">"
               || Ascii.eqb c "&" then
         "\u00" +:+ String (hex_digit (nat_of_ascii c / 16))
                      (String (hex_digit (nat_of_ascii c mod 16)) "")
       else String c "") +:+ escape rest
  end.

Definition quote (s : string) : string :=
  String "034" (escape s) +:+ String "034" "".

Definition key_le (a b : string * value) : Prop := String.leb a.1 b.1 = true.

#[local] Instance key_le_dec a b : Decision (key_le a b).
Proof. unfold key_le. apply _. Defined.

(** A map is written with its keys in increasing order. *)
Fixpoint write_value (fuel : nat) (v : value) : string :=
  match fuel with
  | O => ""
  | S fuel' =>
      match v with
      | VNil => "null"
      | VBool true => "true"
      | VBool false => "false"
      | VNumber lit => lit
      | VString s => quote s
      | VSlice l => "[" +:+ String.concat "," (write_value fuel' <$> l) +:+ "]"
      | VMap m =>
          "{" +:+ String.concat ","
                    ((fun kv : string * value =>
                        quote kv.1 +:+ ":" +:+ write_value fuel' kv.2)
                       <$> merge_sort key_le (map_to_list m))
          +:+ "}"
      end
  end.

(** Values nested up to a hundred levels are written in full. *)
Definition Marshal (conf : NetConf) : err_or bytes :=
  Got (list_byte_of_string (write_value 100 (VMap conf))).

(** *** The store and the delegated plugins *)

(** The host: [remote] is the content of the store, [broken] lists the
    plugin types whose delegation fails, and [readonly] makes every write to
    the scratch directory fail.  A delegated plugin answers an attach with a
    result that names it and records the network; a detach removes it. *)
Definition host (remote : gmap string bytes) (broken : list string)
    (readonly : bool) : Host := {|
  json_Unmarshal_LibKvConf := Unmarshal_LibKvConf;
  json_Unmarshal_netconfs := Unmarshal_netconfs;
  json_Marshal := Marshal;
  Store := gmap string bytes;
  backend_New := fun _ _ _ => Got remote;
  Store_Get := fun kv key =>
    match kv !! key with
    | Some data => Got data
    | None => Failed "Key not found in store"
    end;
  Result := string;
  Plugins := list string;
  DelegateAdd := fun pluginType _ attached =>
    if bool_decide (pluginType ∈ broken)
    then (Failed ("failed to add " +:+ pluginType), attached)
    else (Got ("result of " +:+ pluginType), attached ++ [pluginType]);
  DelegateDel := fun pluginType _ attached =>
    if bool_decide (pluginType ∈ broken)
    then (Some ("failed to delete " +:+ pluginType), attached)
    else (None, filter (fun t => t ≠ pluginType) attached);
  Result_Print := fun _ => None;
  MkdirAll_fault := fun _ => None;
  WriteFile_fault := fun _ =>
    if readonly then Some "read-only file system" else None
|}.

(** The examples spell the double quote of JSON text as an apostrophe. *)
Fixpoint dq (s : string) : string :=
  match s with
  | EmptyString => EmptyString
  | String c rest => String (if Ascii.eqb c "'" then "034"%char else c) (dq rest)
  end.

Definition text (s : string) : bytes := list_byte_of_string (dq s).

Definition args (containerID config : string) : CmdArgs := {|
  ContainerID := containerID;
  Netns := "/var/run/netns/" +:+ containerID;
  IfName := "eth0";
  Args := "";
  Path := "/opt/cni/bin";
  StdinData := text config
|}.

(** The configuration of Documentation/libkv.md, without its [storeConfig]. *)
Definition etcd_conf : string :=
  "{ 'name': 'libkv', 'type': 'libkv', 'storeBackend': 'etcd',
     'uri': 'localhost:2379', 'basePath': 'cni/' }".

(** The two networks of Documentation/libkv.md. *)
Definition two_networks : string :=
  "[ { 'name': 'mynet', 'type': 'bridge', 'bridge': 'cni2', 'isGateway': true,
       'ipMasq': true,
       'ipam': { 'type': 'host-local', 'subnet': '10.23.0.0/16',
                 'routes': [ { 'dst': '0.0.0.0/0' } ] } },
     { 'type': 'loopback' } ]".

(** A host whose store holds [value] under [cni/testcontainer], and the
    arguments of a command for that container. *)
Definition etcd (value : string) : Host :=
  host {[ "cni/testcontainer" := text value ]} [] false.

Definition testcontainer : CmdArgs := args "testcontainer" etcd_conf.

(** The scratch file of that container. *)
Definition scratch : string := "/var/lib/cni/libkv/testcontainer".

(** The state of that host before any command: no file, no network. *)
Definition boot : State (list string) := {| files := ∅; plugins := [] |}.

(** The parsed form of a store value. *)
Definition parsed (value : string) : list NetConf :=
  match Unmarshal_netconfs (text value) with
  | Got netconfs => netconfs
  | Failed _ => []
  end.

(** What [Marshal] writes for the first network of [two_networks]. *)
Definition bridge_conf : string :=
  "{'bridge':'cni2','ipMasq':true,'ipam':{'routes':[{'dst':'0.0.0.0/0'}],'subnet':'10.23.0.0/16','type':'host-local'},'isGateway':true,'name':'mynet','type':'bridge'}".

(** A list whose second entry names no plugin. *)
Definition untyped_second : string :=
  "[ { 'type': 'bridge' }, { 'name': 'lo' }, { 'type': 'loopback' } ]".

(** A configuration that asks for a connection timeout. *)
Definition timeout_conf : string :=
  "{ 'storeBackend': 'etcd', 'uri': 'localhost:2379', 'basePath': 'cni',
     'storeConfig': { 'connectionTimeout': '30' } }".

End Demo.

(** ** Reading a run *)

Section Runs.
Context `{H : Host}.

(** The file that holds the scratch copy for a container. *)
Definition scratchPath (containerID : string) : string :=
  filepath_Join stateDir containerID.

(** [cmdAdd] gets as far as the fetched value: its configuration loads, the
    store is created and the key is found, with value [data]. *)
Definition fetches (args : CmdArgs) (data : bytes) : Prop :=
  ∃ config kv,
    loadPluginConfig (StdinData args) = Got config ∧
    StoreBackend config ∈ init ∧
    backend_New (StoreBackend config) [Uri config]
      {| ConnectionTimeout := 10 * time_Second |} = Got kv ∧
    Store_Get kv (BasePath config +:+ ContainerID args) = Got data.

(** What [cmdAdd] does once the fetched value [pair_Value] has been parsed
    into [netconfs]. *)
Definition attach (containerID : string) (pair_Value : bytes)
    (netconfs : list NetConf) : M (option error) :=
  let* err := saveScratchNetConf containerID pair_Value in
  match err with
  | Some e => ret (Some ("Could not save generated cni configs: " +:+ e))
  | None =>
      let* r := addLoop 0 netconfs None in
      match r with
      | Failed e => ret (Some e)
      | Got result => print result
      end
  end.

(** The delegation an entry asks for: the plugin its ["type"] names and the
    entry as it is serialized; none when the entry cannot be serialized or
    has no string under ["type"]. *)
Definition delegation (conf : NetConf) : option (string * bytes) :=
  match json_Marshal conf, conf !! "type" with
  | Got confBytes, Some (VString pluginType) => Some (pluginType, confBytes)
  | _, _ => None
  end.

Definition addCall (e : Event Result) : option (string * bytes) :=
  match e with DelegateAddCall t c => Some (t, c) | _ => None end.

Definition delCall (e : Event Result) : option (string * bytes) :=
  match e with DelegateDelCall t c => Some (t, c) | _ => None end.

Definition addEvent (c : string * bytes) : Event Result := DelegateAddCall c.1 c.2.
Definition delEvent (c : string * bytes) : Event Result := DelegateDelCall c.1 c.2.

(** The attach, respectively detach, delegations of a run, in order. *)
Definition addCalls (t : list (Event Result)) : list (string * bytes) := omap addCall t.
Definition delCalls (t : list (Event Result)) : list (string * bytes) := omap delCall t.

(** The results of attaching every entry in turn, from the plugin state [p],
    when each delegation can be made and succeeds. *)
Fixpoint attachAll (netconfs : list NetConf) (p : Plugins) : option (list Result) :=
  match netconfs with
  | [] => Some []
  | conf :: rest =>
      match delegation conf with
      | Some (t, c) =>
          match DelegateAdd t c p with
          | (Got res, p') =>
              match attachAll rest p' with
              | Some rs => Some (res :: rs)
              | None => None
              end
          | (Failed _, _) => None
          end
      | None => None
      end
  end.

(** The plugin state after the attach, respectively detach, delegations
    [calls] have run one after the other. *)
Definition afterAdds (p : Plugins) (calls : list (string * bytes)) : Plugins :=
  foldl (fun p c => (DelegateAdd c.1 c.2 p).2) p calls.
Definition afterDels (p : Plugins) (calls : list (string * bytes)) : Plugins :=
  foldl (fun p c => (DelegateDel c.1 c.2 p).2) p calls.

(** The calls [cmdAdd] makes after the fetch. *)
Definition localCall (e : Event Result) : Prop :=
  match e with
  | MkdirAllCall _ _ | WriteFileCall _ _ _ | DelegateAddCall _ _ | PrintCall _ => True
  | _ => False
  end.

(** The delegations the entries of a list ask for, in order, without the
    entries that ask for none. *)
Definition delegations (netconfs : list NetConf) : list (string * bytes) :=
  omap delegation netconfs.

(** The plugin state after detaching every entry in turn, from the plugin
    state [p], when each delegation can be made and succeeds. *)
Fixpoint detachAll (netconfs : list NetConf) (p : Plugins) : option Plugins :=
  match netconfs with
  | [] => Some p
  | conf :: rest =>
      match delegation conf with
      | Some (t, c) =>
          match DelegateDel t c p with
          | (None, p') => detachAll rest p'
          | (Some _, _) => None
          end
      | None => None
      end
  end.

(** The calls [cmdAdd] makes before it has a parsed list. *)
Definition storeCall (e : Event Result) : Prop :=
  match e with
  | NewStoreCall _ _ _ | GetCall _ | LogFatalCall _ => True
  | _ => False
  end.

(** The calls [cmdDel] makes. *)
Definition teardownCall (e : Event Result) : Prop :=
  match e with
  | ReadFileCall _ | RemoveCall _ | DelegateDelCall _ _ => True
  | _ => False
  end.

End Runs.

(** Whether a string holds the path separator. *)
Fixpoint has_separator (s : string) : bool :=
  match s with
  | EmptyString => false
  | String c rest => Ascii.eqb c "/" || has_separator rest
  end.

(** A container identifier that is one path element: not empty, without a
    separator, and neither [.] nor [..]. *)
Definition plainName (id : string) : bool :=
  negb (has_separator id) && negb (String.eqb id "") &&
  negb (String.eqb id ".") && negb (String.eqb id "..").


(** ** Properties *)

Section Facts.
Context `{H : Host}.

Implicit Types (s : State Plugins) (args : CmdArgs) (L : list NetConf).

(** *** Suffixes *)

Lemma substring_all (s : string) : substring 0 (String.length s) s = s.
Proof. induction s as [|c s IH]; simpl; [reflexivity | now rewrite IH]. Qed.

Lemma substring_skip (s t : string) (n : nat) :
  substring (String.length s) n (s +:+ t) = substring 0 n t.
Proof. induction s as [|c s IH]; simpl; [reflexivity | exact IH]. Qed.

Lemma length_app_string (s t : string) :
  String.length (s +:+ t) = String.length s + String.length t.
Proof. induction s as [|c s IH]; simpl; [reflexivity | now rewrite IH]. Qed.

Lemma HasSuffix_app (s suffix : string) : HasSuffix (s +:+ suffix) suffix = true.
Proof.
  unfold HasSuffix. rewrite length_app_string.
  replace (String.length s + String.length suffix - String.length suffix)
    with (String.length s) by lia.
  rewrite substring_skip, substring_all, String.eqb_refl.
  rewrite andb_true_r. apply Nat.leb_le. lia.
Qed.

(** *** The loops, one entry at a time *)

Lemma addLoop_nil index result s :
  addLoop index [] result s = (Returned (Got result), s, []).
Proof. reflexivity. Qed.

Lemma addLoop_unserializable index conf rest result s err :
  json_Marshal conf = Failed err ->
  addLoop index (conf :: rest) result s =
    (Returned (Failed ("Could not marshal subconfig at index " +:+ format_d index
                       +:+ ": " +:+ err)), s, []).
Proof. intros HM. simpl. rewrite HM. reflexivity. Qed.

Lemma addLoop_untyped index conf rest result s confBytes :
  json_Marshal conf = Got confBytes ->
  delegation conf = None ->
  exists msg, addLoop index (conf :: rest) result s = (Panicked msg, s, []).
Proof.
  intros HM HD. unfold delegation in HD. rewrite HM in HD.
  simpl. rewrite HM. unfold bind, assert_string.
  destruct (conf !! "type") as [[]|]; try discriminate; eexists; reflexivity.
Qed.

Lemma addLoop_delegates index conf rest result s t c :
  delegation conf = Some (t, c) ->
  addLoop index (conf :: rest) result s =
    let s1 := {| files := files s; plugins := (DelegateAdd t c (plugins s)).2 |} in
    match (DelegateAdd t c (plugins s)).1 with
    | Failed err => (Returned (Failed err), s1, [DelegateAddCall t c])
    | Got res =>
        let r := addLoop (S index) rest
                   (if (index =? 0)%nat then Some res else result) s1 in
        (outcome r, final r, DelegateAddCall t c :: events r)
    end.
Proof.
  intros HD. unfold delegation in HD. simpl.
  destruct (json_Marshal conf) as [b|]; [|discriminate].
  destruct (conf !! "type") as [[]|]; try discriminate.
  injection HD as -> ->.
  unfold bind, assert_string, ret, invoke_DelegateAdd, bind, emit. simpl.
  destruct (DelegateAdd t c (plugins s)) as [[res|err] p]; simpl; [|reflexivity].
  destruct (addLoop _ _ _ _) as [[o s2] ev]. 
  destruct o; reflexivity.
Qed.

Lemma delLoop_nil index s : delLoop index [] s = (Returned None, s, []).
Proof. reflexivity. Qed.

Lemma delLoop_unserializable index conf rest s err :
  json_Marshal conf = Failed err ->
  delLoop index (conf :: rest) s =
    (Returned (Some ("Could not marshal subconfig at index " +:+ format_d index
                     +:+ ": " +:+ err)), s, []).
Proof. intros HM. simpl. rewrite HM. reflexivity. Qed.

Lemma delLoop_untyped index conf rest s confBytes :
  json_Marshal conf = Got confBytes ->
  delegation conf = None ->
  exists msg, delLoop index (conf :: rest) s = (Panicked msg, s, []).
Proof.
  intros HM HD. unfold delegation in HD. rewrite HM in HD.
  simpl. rewrite HM. unfold bind, assert_string.
  destruct (conf !! "type") as [[]|]; try discriminate; eexists; reflexivity.
Qed.

Lemma delLoop_delegates index conf rest s t c :
  delegation conf = Some (t, c) ->
  delLoop index (conf :: rest) s =
    let s1 := {| files := files s; plugins := (DelegateDel t c (plugins s)).2 |} in
    match (DelegateDel t c (plugins s)).1 with
    | Some err => (Returned (Some err), s1, [DelegateDelCall t c])
    | None =>
        let r := delLoop (S index) rest s1 in
        (outcome r, final r, DelegateDelCall t c :: events r)
    end.
Proof.
  intros HD. unfold delegation in HD. simpl.
  destruct (json_Marshal conf) as [b|]; [|discriminate].
  destruct (conf !! "type") as [[]|]; try discriminate.
  injection HD as -> ->.
  unfold bind, assert_string, ret, invoke_DelegateDel, bind, emit. simpl.
  destruct (DelegateDel t c (plugins s)) as [[err|] p]; simpl; [reflexivity|].
  destruct (delLoop _ _ _) as [[o s2] ev].
  destruct o; reflexivity.
Qed.

(** Case analysis on the head of the list a loop is at. *)
Ltac loop_head conf :=
  let HD := fresh "HD" in
  let HM := fresh "HM" in
  destruct (delegation conf) as [[t c]|] eqn:HD;
  [ first [ rewrite (addLoop_delegates _ _ _ _ _ _ _ HD)
          | rewrite (delLoop_delegates _ _ _ _ _ _ HD) ]
  | destruct (json_Marshal conf) eqn:HM;
    [ lazymatch goal with
      | |- context [addLoop ?i (conf :: ?rest) ?res ?s] =>
          destruct (addLoop_untyped i conf rest res s _ HM HD) as [? ->]
      | |- context [delLoop ?i (conf :: ?rest) ?s] =>
          destruct (delLoop_untyped i conf rest s _ HM HD) as [? ->]
      end
    | first [ rewrite (addLoop_unserializable _ _ _ _ _ _ HM)
            | rewrite (delLoop_unserializable _ _ _ _ _ HM) ] ] ].

Lemma addLoop_files L : forall index result s,
  files (final (addLoop index L result s)) = files s.
Proof.
  induction L as [|conf rest IH]; intros index result s; [reflexivity|].
  loop_head conf;
    try reflexivity.
  simpl. destruct (DelegateAdd _ _ _) as [[res|err] p]; simpl; [|reflexivity].
  unfold final in *. simpl. now rewrite IH.
Qed.

Lemma delLoop_files L : forall index s,
  files (final (delLoop index L s)) = files s.
Proof.
  induction L as [|conf rest IH]; intros index s; [reflexivity|].
  loop_head conf;
    try reflexivity.
  simpl. destruct (DelegateDel _ _ _) as [[err|] p]; simpl; [reflexivity|].
  unfold final in *. simpl. now rewrite IH.
Qed.


(** The loop of [cmdAdd] makes attach delegations only: those of the first
    [n] entries, in order, each from the plugin state the one before left;
    [n] is the whole list when the loop runs to its end. *)
Lemma addLoop_calls L : forall index result s,
  let r := addLoop index L result s in
  exists n,
    n <= length L /\
    events r = addEvent <$> addCalls (events r) /\
    Some <$> addCalls (events r) = delegation <$> take n L /\
    plugins (final r) = afterAdds (plugins s) (addCalls (events r)) /\
    (forall x, outcome r = Returned (Got x) -> n = length L).
Proof.
  induction L as [|conf rest IH]; intros index result s r.
  - exists 0. subst r. simpl. repeat split; auto.
  - subst r.
    loop_head conf.
    + simpl. destruct (DelegateAdd t c (plugins s)) as [[res|err] p] eqn:HA; simpl.
      * destruct (IH (S index) (if (index =? 0)%nat then Some res else result)
                    {| files := files s; plugins := p |}) as (n & Hn & He & Hc & Hp & Ho).
        set (r' := addLoop _ _ _ _) in *.
        exists (S n). unfold events, final, outcome in *. simpl in *.
        repeat split.
        -- lia.
        -- unfold addEvent at 1. simpl. f_equal. exact He.
        -- rewrite HD. f_equal. exact Hc.
        -- rewrite Hp, HA. reflexivity.
        -- intros x Hx. f_equal. eauto.
      * exists 1. unfold events, final, outcome. simpl. repeat split.
        -- lia.
        -- now rewrite HD.
        -- now rewrite HA.
        -- discriminate.
    + exists 0. unfold events, final, outcome. simpl. repeat split; auto; try lia.
      discriminate.
    + exists 0. unfold events, final, outcome. simpl. repeat split; auto; try lia.
      discriminate.
Qed.

Lemma delLoop_calls L : forall index s,
  let r := delLoop index L s in
  exists n,
    n <= length L /\
    events r = delEvent <$> delCalls (events r) /\
    Some <$> delCalls (events r) = delegation <$> take n L /\
    plugins (final r) = afterDels (plugins s) (delCalls (events r)) /\
    (outcome r = Returned None -> n = length L).
Proof.
  induction L as [|conf rest IH]; intros index s r.
  - exists 0. subst r. simpl. repeat split; auto.
  - subst r. loop_head conf.
    + simpl. destruct (DelegateDel t c (plugins s)) as [[err|] p] eqn:HA; simpl.
      * exists 1. unfold events, final, outcome. simpl. repeat split.
        -- lia.
        -- now rewrite HD.
        -- now rewrite HA.
        -- discriminate.
      * destruct (IH (S index) {| files := files s; plugins := p |})
          as (n & Hn & He & Hc & Hp & Ho).
        set (r' := delLoop _ _ _) in *.
        exists (S n). unfold events, final, outcome in *. simpl in *.
        repeat split.
        -- lia.
        -- unfold delEvent at 1. simpl. f_equal. exact He.
        -- rewrite HD. f_equal. exact Hc.
        -- rewrite Hp, HA. reflexivity.
        -- intros Hx. f_equal. eauto.
    + exists 0. unfold events, final, outcome. simpl. repeat split; auto; try lia.
      discriminate.
    + exists 0. unfold events, final, outcome. simpl. repeat split; auto; try lia.
      discriminate.
Qed.

(** *** The commands, as one equation each *)

Lemma attach_run containerID data L s :
  attach containerID data L s =
    let mkdir := MkdirAllCall stateDir mode_0700 in
    let write := WriteFileCall (scratchPath containerID) data mode_0600 in
    match MkdirAll_fault stateDir with
    | Some e =>
        (Returned (Some ("Could not save generated cni configs: " +:+ e)), s, [mkdir])
    | None =>
        match WriteFile_fault (scratchPath containerID) with
        | Some e =>
            (Returned (Some ("Could not save generated cni configs: " +:+ e)), s,
             [mkdir; write])
        | None =>
            let r := addLoop 0 L None
                       {| files := <[scratchPath containerID := data]> (files s);
                          plugins := plugins s |} in
            match outcome r with
            | Returned (Got result) =>
                (Returned (Result_Print result), final r,
                 mkdir :: write :: events r ++ [PrintCall result])
            | Returned (Failed e) =>
                (Returned (Some e), final r, mkdir :: write :: events r)
            | Panicked msg => (Panicked msg, final r, mkdir :: write :: events r)
            | Exited code => (Exited code, final r, mkdir :: write :: events r)
            end
        end
    end.
Proof.
  unfold attach, saveScratchNetConf, os_MkdirAll, ioutil_WriteFile, scratchPath,
    bind, emit, ret, print. simpl.
  destruct (MkdirAll_fault stateDir); [reflexivity|]. simpl.
  destruct (WriteFile_fault _); [reflexivity|]. simpl.
  unfold outcome, final, events.
  destruct (addLoop 0 L None _) as [[[[result|e]|msg|code] s1] ev]; simpl;
    rewrite ?app_nil_r; reflexivity.
Qed.

Lemma cmdAdd_run args s :
  cmdAdd args s =
    match loadPluginConfig (StdinData args) with
    | Failed err => (Returned (Some err), s, [])
    | Got config =>
        let call := NewStoreCall (StoreBackend config) [Uri config]
                      {| ConnectionTimeout := 10 * time_Second |} in
        let key := BasePath config +:+ ContainerID args in
        match (if bool_decide (StoreBackend config ∈ init)
               then backend_New (StoreBackend config) [Uri config]
                      {| ConnectionTimeout := 10 * time_Second |}
               else Failed "Backend storage not supported yet, please choose one of")
        with
        | Failed _ =>
            (Exited 1, s,
             [call; LogFatalCall ("Cannot create %s store" +:+ StoreBackend config)])
        | Got kv =>
            match Store_Get kv key with
            | Failed _ =>
                (Returned (Some ("Error trying accessing value at key: " +:+ key)), s,
                 [call; GetCall key])
            | Got data =>
                match json_Unmarshal_netconfs data with
                | Failed err =>
                    (Returned (Some ("Could not unmarshal store value: " +:+ err)), s,
                     [call; GetCall key])
                | Got L =>
                    let r := attach (ContainerID args) data L s in
                    (outcome r, final r, call :: GetCall key :: events r)
                end
            end
        end
    end.
Proof.
  unfold cmdAdd. destruct (loadPluginConfig _) as [config|err]; [|reflexivity].
  unfold libkv_NewStore, kv_Get, log_Fatal, os_Exit, bind, emit, ret. simpl.
  destruct (if bool_decide _ then _ else _) as [kv|]; [|reflexivity]. simpl.
  destruct (Store_Get _ _) as [data|]; [|reflexivity]. simpl.
  destruct (json_Unmarshal_netconfs data) as [L|]; [|reflexivity].
  unfold attach, outcome, final, events, bind.
  destruct (saveScratchNetConf _ _ _) as [[[[e|]|msg|code] s1] ev1]; simpl;
    try reflexivity.
  destruct (addLoop 0 L None s1) as [[[[result|e]|msg|code] s2] ev2]; simpl;
    try reflexivity.
Qed.

Lemma cmdDel_run args s :
  cmdDel args s =
    let path := scratchPath (ContainerID args) in
    let s1 := {| files := delete path (files s); plugins := plugins s |} in
    match files s !! path with
    | None =>
        (Returned (Some ("open " +:+ path +:+ ": no such file or directory")), s1,
         [ReadFileCall path; RemoveCall path])
    | Some data =>
        match json_Unmarshal_netconfs data with
        | Failed err =>
            (Returned (Some ("failed to parse netconf: " +:+ err)), s1,
             [ReadFileCall path; RemoveCall path])
        | Got L =>
            let r := delLoop 0 L s1 in
            (outcome r, final r, ReadFileCall path :: RemoveCall path :: events r)
        end
    end.
Proof.
  unfold cmdDel, consumeScratchNetConf, ioutil_ReadFile, os_Remove, scratchPath,
    bind, emit, ret. simpl.
  destruct (files s !! _) as [data|]; simpl; [|reflexivity].
  destruct (json_Unmarshal_netconfs data) as [L|]; [|reflexivity].
  unfold outcome, final, events.
  destruct (delLoop 0 L _) as [[o s2] ev]. reflexivity.
Qed.

(** *** After the fetch *)

Lemma cmdAdd_fetched args s data L :
  fetches args data ->
  json_Unmarshal_netconfs data = Got L ->
  exists config,
    loadPluginConfig (StdinData args) = Got config /\
    let r := attach (ContainerID args) data L s in
    cmdAdd args s =
      (outcome r, final r,
       NewStoreCall (StoreBackend config) [Uri config]
         {| ConnectionTimeout := 10 * time_Second |}
       :: GetCall (BasePath config +:+ ContainerID args) :: events r).
Proof.
  intros (config & kv & Hload & Hin & Hnew & Hget) Hparse.
  exists config. split; [exact Hload|].
  rewrite cmdAdd_run, Hload. simpl.
  rewrite bool_decide_eq_true_2 by exact Hin.
  rewrite Hnew, Hget, Hparse. reflexivity.
Qed.

Lemma addLoop_events_local L index result s :
  Forall localCall (events (addLoop index L result s)).
Proof.
  destruct (addLoop_calls L index result s) as (n & _ & He & _).
  rewrite He. apply Forall_fmap, Forall_forall. intros [t c] _. exact I.
Qed.

Lemma attach_events_local containerID data L s :
  Forall localCall (events (attach containerID data L s)).
Proof.
  rewrite attach_run. simpl.
  destruct (MkdirAll_fault stateDir); [repeat constructor|].
  destruct (WriteFile_fault _); [repeat constructor|].
  pose proof (addLoop_events_local L 0 None
    {| files := <[scratchPath containerID := data]> (files s);
       plugins := plugins s |}) as Hloc.
  destruct (outcome _) as [[result|e]|msg|code]; unfold events at 1; simpl;
    repeat (constructor; [exact I|]); try exact Hloc.
  apply Forall_app. split; [exact Hloc | repeat constructor].
Qed.

(** Once the scratch copy is written, it stays as written to the end of
    [cmdAdd], whatever becomes of the delegations. *)
Lemma attach_files containerID data L s :
  MkdirAll_fault stateDir = None ->
  WriteFile_fault (scratchPath containerID) = None ->
  files (final (attach containerID data L s)) =
    <[scratchPath containerID := data]> (files s).
Proof.
  intros Hm Hw. rewrite attach_run, Hm, Hw. simpl.
  pose proof (addLoop_files L 0 None
    {| files := <[scratchPath containerID := data]> (files s);
       plugins := plugins s |}) as Hf.
  destruct (outcome _) as [[result|e]|msg|code]; exact Hf.
Qed.

(** A delegation in the run of [attach] comes after a successful write. *)
Lemma attach_delegation_after_write containerID data L s i t c :
  events (attach containerID data L s) !! i = Some (DelegateAddCall t c) ->
  MkdirAll_fault stateDir = None /\
  WriteFile_fault (scratchPath containerID) = None /\
  2 <= i /\
  events (attach containerID data L s) !! 1 =
    Some (WriteFileCall (scratchPath containerID) data mode_0600) /\
  events (attach containerID data L s) !! 0 = Some (MkdirAllCall stateDir mode_0700).
Proof.
  rewrite attach_run. simpl.
  destruct (MkdirAll_fault stateDir).
  { destruct i as [|[|i]]; discriminate. }
  destruct (WriteFile_fault _).
  { destruct i as [|[|[|i]]]; discriminate. }
  intros Hi. repeat split.
  - destruct (outcome _) as [[result|e]|msg|code];
      destruct i as [|[|i]]; try discriminate; lia.
  - destruct (outcome _) as [[result|e]|msg|code]; reflexivity.
  - destruct (outcome _) as [[result|e]|msg|code]; reflexivity.
Qed.

(** C1. In every run of [cmdAdd] whose fetched bytes parse, each attach
    delegation is preceded by the write of exactly those bytes to the scratch
    file of the container, no delegation comes before that write, the write
    succeeded, and the file still holds the bytes when the command ends. *)
Theorem scratch_write_precedes_delegation args s data L i t c :
  fetches args data ->
  json_Unmarshal_netconfs data = Got L ->
  events (cmdAdd args s) !! i = Some (DelegateAddCall t c) ->
  exists j,
    j < i /\
    events (cmdAdd args s) !! j =
      Some (WriteFileCall (scratchPath (ContainerID args)) data mode_0600) /\
    (forall k, k < j -> addCall <$> events (cmdAdd args s) !! k = Some None) /\
    WriteFile_fault (scratchPath (ContainerID args)) = None /\
    files (final (cmdAdd args s)) !! scratchPath (ContainerID args) = Some data.
Proof.
  intros Hf Hp.
  destruct (cmdAdd_fetched args s data L Hf Hp) as (config & _ & ->).
  unfold events at 1 2 3, final. simpl. intros Hi.
  destruct i as [|[|i]]; try discriminate. simpl in Hi.
  destruct (attach_delegation_after_write _ _ _ _ _ _ _ Hi)
    as (Hm & Hw & Hge & Hwrite & Hmkdir).
  exists 3. repeat split.
  - lia.
  - exact Hwrite.
  - intros [|[|[|k]]] Hk; try lia; simpl; try reflexivity.
    now rewrite Hmkdir.
  - exact Hw.
  - change ((attach (ContainerID args) data L s).1.2)
      with (final (attach (ContainerID args) data L s)).
    rewrite attach_files by assumption. apply lookup_insert_eq.
Qed.

(** C2, as the code has it. An empty list is a list like any other, on both
    paths: when the fetched value parses to the empty list and the scratch
    file can be written, [cmdAdd] writes it, delegates nothing, prints the
    nil result and returns what the printing returns; when the scratch copy
    parses to the empty list, [cmdDel] delegates nothing and returns no
    error. *)
Theorem empty_list_is_a_no_op args s data :
  json_Unmarshal_netconfs data = Got [] ->
  (fetches args data ->
   MkdirAll_fault stateDir = None ->
   WriteFile_fault (scratchPath (ContainerID args)) = None ->
   outcome (cmdAdd args s) = Returned (Result_Print None) /\
   addCalls (events (cmdAdd args s)) = [] /\
   last (events (cmdAdd args s)) = Some (PrintCall None) /\
   files (final (cmdAdd args s)) !! scratchPath (ContainerID args) = Some data) /\
  (files s !! scratchPath (ContainerID args) = Some data ->
   outcome (cmdDel args s) = Returned None /\
   delCalls (events (cmdDel args s)) = []).
Proof.
  intros Hp. split.
  - intros Hf Hm Hw.
    destruct (cmdAdd_fetched args s data [] Hf Hp) as (config & _ & ->).
    rewrite attach_run, Hm, Hw. simpl. repeat split.
    apply lookup_insert_eq.
  - intros Hs. rewrite cmdDel_run. simpl. rewrite Hs, Hp. simpl. split; reflexivity.
Qed.

(** *** The order of the delegations *)

Lemma attach_calls containerID data L s :
  let r := attach containerID data L s in
  exists n,
    n <= length L /\
    Some <$> addCalls (events r) = delegation <$> take n L /\
    plugins (final r) = afterAdds (plugins s) (addCalls (events r)) /\
    (outcome r = Returned None -> n = length L).
Proof.
  simpl. rewrite attach_run. simpl.
  destruct (MkdirAll_fault stateDir).
  { exists 0. repeat split; [lia | discriminate]. }
  destruct (WriteFile_fault _).
  { exists 0. repeat split; [lia | discriminate]. }
  destruct (addLoop_calls L 0 None
    {| files := <[scratchPath containerID := data]> (files s);
       plugins := plugins s |}) as (n & Hn & _ & Hc & Hpl & Ho).
  exists n. simpl in Hpl.
  destruct (outcome _) as [[result|e]|msg|code] eqn:Hout;
    unfold events at 1 2, final at 1; simpl; repeat split; try assumption;
    try discriminate.
  - unfold addCalls in *. rewrite omap_app. simpl. now rewrite app_nil_r.
  - unfold addCalls in *. rewrite omap_app. simpl. now rewrite app_nil_r.
  - intros _. eauto.
Qed.

(** C3. The attach delegations of [cmdAdd] are those of the first [n]
    entries of the parsed list, in index order, each run from the plugin
    state its predecessor left, and of all the entries when the command
    returns without error.  The detach delegations of [cmdDel], run on a
    scratch copy that holds the same bytes, are those of the first [m]
    entries in the same index order (not the reverse), and of all of them
    when it returns without error; then both commands have made the same
    delegations in the same order. *)
Theorem delegation_in_index_order args s s' data L :
  fetches args data ->
  json_Unmarshal_netconfs data = Got L ->
  files s' !! scratchPath (ContainerID args) = Some data ->
  let add := cmdAdd args s in
  let del := cmdDel args s' in
  (exists n,
     n <= length L /\
     Some <$> addCalls (events add) = delegation <$> take n L /\
     plugins (final add) = afterAdds (plugins s) (addCalls (events add)) /\
     (outcome add = Returned None -> n = length L)) /\
  (exists m,
     m <= length L /\
     Some <$> delCalls (events del) = delegation <$> take m L /\
     plugins (final del) = afterDels (plugins s') (delCalls (events del)) /\
     (outcome del = Returned None -> m = length L)) /\
  (outcome add = Returned None -> outcome del = Returned None ->
   Some <$> addCalls (events add) = delegation <$> L /\
   delCalls (events del) = addCalls (events add)).
Proof.
  intros Hf Hp Hs add del.
  assert (Hadd : exists n,
     n <= length L /\
     Some <$> addCalls (events add) = delegation <$> take n L /\
     plugins (final add) = afterAdds (plugins s) (addCalls (events add)) /\
     (outcome add = Returned None -> n = length L)).
  { subst add. destruct (cmdAdd_fetched args s data L Hf Hp) as (config & _ & ->).
    destruct (attach_calls (ContainerID args) data L s) as (n & Hn & Hc & Hpl & Ho).
    exists n. repeat split; assumption. }
  assert (Hdel : exists m,
     m <= length L /\
     Some <$> delCalls (events del) = delegation <$> take m L /\
     plugins (final del) = afterDels (plugins s') (delCalls (events del)) /\
     (outcome del = Returned None -> m = length L)).
  { subst del. rewrite cmdDel_run. simpl. rewrite Hs, Hp.
    destruct (delLoop_calls L 0
      {| files := delete (scratchPath (ContainerID args)) (files s');
         plugins := plugins s' |}) as (m & Hm & _ & Hc & Hpl & Ho).
    exists m. repeat split; assumption. }
  split; [exact Hadd|]. split; [exact Hdel|].
  intros Hok Hok'.
  destruct Hadd as (n & _ & Hc & _ & Ho).
  destruct Hdel as (m & _ & Hc' & _ & Ho').
  rewrite (Ho Hok), firstn_all in Hc. rewrite (Ho' Hok'), firstn_all in Hc'.
  split; [exact Hc|].
  apply (inj (fmap Some)). now rewrite Hc, Hc'.
Qed.

(** *** The result of the first entry *)

(** When every entry attaches, the loop ends with [result] as the first
    iteration set it; an iteration past the first leaves it alone. *)
Lemma addLoop_attachAll L : forall index result s results,
  attachAll L (plugins s) = Some results ->
  let r := addLoop index L result s in
  outcome r =
    Returned (Got (if (index =? 0)%nat
                   then match results with res :: _ => Some res | [] => result end
                   else result)) /\
  forall e, e ∈ events r -> localCall e /\ forall x, e <> PrintCall x.
Proof.
  induction L as [|conf rest IH]; intros index result s results Hall r; subst r.
  - injection Hall as <-. simpl. split; [now destruct (index =? 0)%nat|].
    intros e He. inversion He.
  - simpl in Hall. destruct (delegation conf) as [[t c]|] eqn:HD; [|discriminate].
    rewrite (addLoop_delegates _ _ _ _ _ _ _ HD). simpl.
    destruct (DelegateAdd t c (plugins s)) as [[res|err] p]; [|discriminate].
    destruct (attachAll rest p) as [rs|] eqn:Hrest; [|discriminate].
    injection Hall as <-. simpl.
    destruct (IH (S index) (if (index =? 0)%nat then Some res else result)
                {| files := files s; plugins := p |} rs Hrest) as [Ho He].
    split.
    + unfold outcome at 1. simpl. rewrite Ho. simpl.
      now destruct (index =? 0)%nat.
    + intros e Hin. unfold events at 1 in Hin. simpl in Hin.
      apply elem_of_cons in Hin as [->|Hin]; [|now apply He].
      split; [exact I | discriminate].
Qed.

(** C4. When the fetched list is not empty and every entry attaches, [cmdAdd]
    prints exactly the result of the first entry's delegation, once and as
    its last call, and returns what that printing returns; the results of the
    other entries, whatever they are, are not printed. *)
Theorem first_result_is_returned args s data conf rest res others :
  fetches args data ->
  json_Unmarshal_netconfs data = Got (conf :: rest) ->
  MkdirAll_fault stateDir = None ->
  WriteFile_fault (scratchPath (ContainerID args)) = None ->
  attachAll (conf :: rest) (plugins s) = Some (res :: others) ->
  (exists t c, delegation conf = Some (t, c) /\
               (DelegateAdd t c (plugins s)).1 = Got res) /\
  outcome (cmdAdd args s) = Returned (Result_Print (Some res)) /\
  last (events (cmdAdd args s)) = Some (PrintCall (Some res)) /\
  (forall x, PrintCall x ∈ events (cmdAdd args s) -> x = Some res).
Proof.
  intros Hf Hp Hm Hw Hall. split.
  { simpl in Hall. destruct (delegation conf) as [[t c]|]; [|discriminate].
    exists t, c. split; [reflexivity|].
    destruct (DelegateAdd t c (plugins s)) as [[r|] p]; [|discriminate].
    destruct (attachAll rest p); [|discriminate]. now injection Hall as -> _. }
  destruct (cmdAdd_fetched args s data _ Hf Hp) as (config & _ & ->).
  rewrite attach_run, Hm, Hw. simpl.
  destruct (addLoop_attachAll (conf :: rest) 0 None
    {| files := <[scratchPath (ContainerID args) := data]> (files s);
       plugins := plugins s |} _ Hall) as [Ho He].
  simpl in Ho. rewrite Ho. unfold outcome, events. simpl. repeat split.
  - rewrite !last_cons, last_snoc. reflexivity.
  - intros x Hin.
    repeat (apply elem_of_cons in Hin as [Hin|Hin]; [discriminate|]).
    apply elem_of_app in Hin as [Hin|Hin].
    + destruct (He _ Hin) as [_ Hne]. now destruct (Hne x).
    + apply list_elem_of_singleton in Hin. now injection Hin.
Qed.

(** *** The scratch copy *)

(** What [saveScratchNetConf] wrote, [consumeScratchNetConf] reads. *)
Lemma consume_after_save containerID data s p :
  outcome (saveScratchNetConf containerID data s) = Returned None ->
  outcome (consumeScratchNetConf containerID
             {| files := files (final (saveScratchNetConf containerID data s));
                plugins := p |}) = Returned (Got data).
Proof.
  unfold saveScratchNetConf, consumeScratchNetConf, os_MkdirAll, ioutil_WriteFile,
    ioutil_ReadFile, os_Remove, bind, emit, ret, outcome, final. simpl.
  destruct (MkdirAll_fault stateDir); simpl; [discriminate|].
  fold (scratchPath containerID).
  destruct (WriteFile_fault (scratchPath containerID)); simpl; [discriminate|].
  intros _. now rewrite lookup_insert_eq.
Qed.

Lemma cmdAdd_files args s data L :
  fetches args data ->
  json_Unmarshal_netconfs data = Got L ->
  MkdirAll_fault stateDir = None ->
  WriteFile_fault (scratchPath (ContainerID args)) = None ->
  files (final (cmdAdd args s)) =
    <[scratchPath (ContainerID args) := data]> (files s).
Proof.
  intros Hf Hp Hm Hw.
  destruct (cmdAdd_fetched args s data L Hf Hp) as (config & _ & ->).
  apply attach_files; assumption.
Qed.

(** C5. The bytes [cmdAdd] fetched and wrote to the scratch file of a
    container are the bytes [consumeScratchNetConf] reads back for that
    container at teardown, byte for byte, whatever the delegated plugins did
    in between. *)
Theorem scratch_round_trip args s data L p :
  fetches args data ->
  json_Unmarshal_netconfs data = Got L ->
  MkdirAll_fault stateDir = None ->
  WriteFile_fault (scratchPath (ContainerID args)) = None ->
  WriteFileCall (scratchPath (ContainerID args)) data mode_0600 ∈ events (cmdAdd args s) /\
  outcome (consumeScratchNetConf (ContainerID args)
             {| files := files (final (cmdAdd args s)); plugins := p |})
    = Returned (Got data).
Proof.
  intros Hf Hp Hm Hw. split.
  - destruct (cmdAdd_fetched args s data L Hf Hp) as (config & _ & ->).
    unfold events at 1. simpl. rewrite attach_run, Hm, Hw. simpl.
    destruct (outcome _) as [[result|e]|msg|code]; unfold events; simpl;
      do 3 apply list_elem_of_further; apply list_elem_of_here.
  - rewrite (cmdAdd_files args s data L) by assumption.
    unfold consumeScratchNetConf, ioutil_ReadFile, os_Remove, bind, emit, ret,
      outcome. simpl.
    fold (scratchPath (ContainerID args)). now rewrite lookup_insert_eq.
Qed.

(** C6. When [cmdDel] ends, however it ends, the scratch file of the
    container is gone; a further [cmdDel] for the same container then reads
    nothing, delegates nothing and returns the error of the failed read. *)
Theorem scratch_record_is_consumed args s p :
  let path := scratchPath (ContainerID args) in
  let again := cmdDel args {| files := files (final (cmdDel args s)); plugins := p |} in
  files (final (cmdDel args s)) !! path = None /\
  outcome again =
    Returned (Some ("open " +:+ path +:+ ": no such file or directory")) /\
  events again = [ReadFileCall path; RemoveCall path].
Proof.
  intros path again.
  assert (Hgone : files (final (cmdDel args s)) !! path = None).
  { rewrite cmdDel_run. simpl. fold path.
    destruct (files s !! path) as [data|]; [|apply lookup_delete_eq].
    destruct (json_Unmarshal_netconfs data) as [L|]; [|apply lookup_delete_eq].
    unfold final at 1. simpl.
    change ((delLoop 0 L ?s0).1.2) with (final (delLoop 0 L s0)).
    rewrite delLoop_files. apply lookup_delete_eq. }
  split; [exact Hgone|].
  subst again. rewrite cmdDel_run. simpl. fold path. rewrite Hgone. split; reflexivity.
Qed.

(** *** An entry without a usable type *)

Lemma addLoop_panics good : forall index result s results bad rest confBytes,
  attachAll good (plugins s) = Some results ->
  json_Marshal bad = Got confBytes ->
  delegation bad = None ->
  let r := addLoop index (good ++ bad :: rest) result s in
  (exists msg, outcome r = Panicked msg) /\
  Some <$> addCalls (events r) = delegation <$> good.
Proof.
  induction good as [|conf good IH];
    intros index result s results bad rest confBytes Hall HM HD r; subst r.
  - change ([] ++ bad :: rest) with (bad :: rest).
    destruct (addLoop_untyped index bad rest result s _ HM HD) as [msg ->].
    split; [now exists msg | reflexivity].
  - simpl in Hall. destruct (delegation conf) as [[t c]|] eqn:HDc; [|discriminate].
    rewrite <- app_comm_cons, (addLoop_delegates _ _ _ _ _ _ _ HDc). simpl.
    destruct (DelegateAdd t c (plugins s)) as [[res|err] p]; [|discriminate].
    destruct (attachAll good p) as [rs|] eqn:Hgood; [|discriminate]. simpl.
    destruct (IH (S index) (if (index =? 0)%nat then Some res else result)
                {| files := files s; plugins := p |} rs bad rest confBytes
                Hgood HM HD) as [Ho Hc].
    split; [exact Ho|].
    unfold events at 1. simpl. rewrite HDc. f_equal. exact Hc.
Qed.

(** C7, as the code has it. When an entry of the parsed list has no string
    under ["type"], and the entries before it attach, [cmdAdd] does not
    return an error: the type assertion panics.  The entries before the
    offending one have been delegated, in order, and no entry after it is. *)
Theorem untyped_entry_panics args s data good bad rest results confBytes :
  fetches args data ->
  json_Unmarshal_netconfs data = Got (good ++ bad :: rest) ->
  MkdirAll_fault stateDir = None ->
  WriteFile_fault (scratchPath (ContainerID args)) = None ->
  attachAll good (plugins s) = Some results ->
  json_Marshal bad = Got confBytes ->
  (forall t, bad !! "type" <> Some (VString t)) ->
  (exists msg, outcome (cmdAdd args s) = Panicked msg) /\
  Some <$> addCalls (events (cmdAdd args s)) = delegation <$> good.
Proof.
  intros Hf Hp Hm Hw Hall HM Hty.
  assert (HD : delegation bad = None).
  { unfold delegation. rewrite HM.
    destruct (bad !! "type") as [[]|] eqn:Hb; try reflexivity.
    now destruct (Hty s0). }
  destruct (cmdAdd_fetched args s data _ Hf Hp) as (config & _ & ->).
  rewrite attach_run, Hm, Hw. simpl.
  destruct (addLoop_panics good 0 None
    {| files := <[scratchPath (ContainerID args) := data]> (files s);
       plugins := plugins s |} results bad rest confBytes Hall HM HD)
    as [[msg Ho] Hc].
  rewrite Ho. split; [now exists msg | exact Hc].
Qed.

(** *** The configuration and the store *)

Lemma loadPluginConfig_inv data config :
  loadPluginConfig data = Got config ->
  exists raw,
    json_Unmarshal_LibKvConf data = Got raw /\
    StoreBackend config = StoreBackend raw /\
    Uri config = Uri raw /\
    StoreConfig config = StoreConfig raw /\
    BasePath config =
      (if HasSuffix (BasePath raw) "/" then BasePath raw else BasePath raw +:+ "/").
Proof.
  unfold loadPluginConfig.
  destruct (json_Unmarshal_LibKvConf data) as [raw|]; [|discriminate].
  intros Hc. exists raw. split; [reflexivity|].
  destruct (HasSuffix (BasePath raw) "/"); simpl in Hc; injection Hc as <-;
    repeat split.
Qed.

(** The calls of [cmdAdd] to the store, when its configuration loads. *)
Lemma cmdAdd_store_calls args s config :
  loadPluginConfig (StdinData args) = Got config ->
  exists rest,
    events (cmdAdd args s) =
      NewStoreCall (StoreBackend config) [Uri config]
        {| ConnectionTimeout := 10 * time_Second |} :: rest /\
    (rest = [LogFatalCall ("Cannot create %s store" +:+ StoreBackend config)] \/
     exists rest',
       rest = GetCall (BasePath config +:+ ContainerID args) :: rest' /\
       Forall localCall rest').
Proof.
  intros Hload. rewrite cmdAdd_run, Hload. simpl.
  destruct (if bool_decide _ then _ else _) as [kv|]; [|eexists; split; eauto].
  destruct (Store_Get _ _) as [data|];
    [|eexists; split; [reflexivity|right; eexists; split; eauto]].
  destruct (json_Unmarshal_netconfs data) as [L|];
    [|eexists; split; [reflexivity|right; eexists; split; eauto]].
  eexists. split; [reflexivity|]. right. eexists. split; [reflexivity|].
  apply attach_events_local.
Qed.

(** C8. The key [cmdAdd] asks the store for is the loaded prefix followed
    by the container identifier, and the loaded prefix is the configured one
    with ["/"] appended unless it already ends with it; so it always ends
    with ["/"].  No other key is asked for, and this one is whenever the
    store has been created. *)
Theorem store_key_is_prefix_plus_id args s config :
  loadPluginConfig (StdinData args) = Got config ->
  HasSuffix (BasePath config) "/" = true /\
  (exists raw,
     json_Unmarshal_LibKvConf (StdinData args) = Got raw /\
     BasePath config =
       (if HasSuffix (BasePath raw) "/" then BasePath raw
        else BasePath raw +:+ "/")) /\
  (forall key, GetCall key ∈ events (cmdAdd args s) ->
     key = BasePath config +:+ ContainerID args) /\
  (forall kv,
     StoreBackend config ∈ init ->
     backend_New (StoreBackend config) [Uri config]
       {| ConnectionTimeout := 10 * time_Second |} = Got kv ->
     events (cmdAdd args s) !! 1 =
       Some (GetCall (BasePath config +:+ ContainerID args))).
Proof.
  intros Hload.
  destruct (loadPluginConfig_inv _ _ Hload) as (raw & Hraw & _ & _ & _ & Hbase).
  split; [|split; [|split]].
  - rewrite Hbase. destruct (HasSuffix (BasePath raw) "/") eqn:Hs; [exact Hs|].
    apply HasSuffix_app.
  - exists raw. split; assumption.
  - intros key Hin.
    destruct (cmdAdd_store_calls args s config Hload) as (rest & He & Hrest).
    rewrite He in Hin. apply elem_of_cons in Hin as [Hin|Hin]; [discriminate|].
    destruct Hrest as [->|(rest' & -> & Hloc)].
    + apply list_elem_of_singleton in Hin. discriminate.
    + apply elem_of_cons in Hin as [Hin|Hin]; [now injection Hin|].
      rewrite Forall_forall in Hloc. destruct (Hloc _ Hin).
  - intros kv Hin Hnew. rewrite cmdAdd_run, Hload. simpl.
    rewrite bool_decide_eq_true_2 by exact Hin. rewrite Hnew.
    destruct (Store_Get _ _) as [data|]; [|reflexivity].
    destruct (json_Unmarshal_netconfs data); reflexivity.
Qed.

(** C9, as the code has it. Whatever the configuration says under
    [storeConfig], [cmdAdd] creates the store with a connection timeout of ten
    seconds. *)
Theorem connection_timeout_is_fixed args s backend addrs options :
  NewStoreCall backend addrs options ∈ events (cmdAdd args s) ->
  ConnectionTimeout options = (10 * time_Second)%Z.
Proof.
  intros Hin. rewrite cmdAdd_run in Hin.
  destruct (loadPluginConfig (StdinData args)) as [config|] eqn:Hload.
  - destruct (cmdAdd_store_calls args s config Hload) as (rest & He & Hrest).
    rewrite cmdAdd_run, Hload in He. rewrite He in Hin.
    apply elem_of_cons in Hin as [Hin|Hin]; [now injection Hin as _ _ ->|].
    destruct Hrest as [->|(rest' & -> & Hloc)].
    + apply list_elem_of_singleton in Hin. discriminate.
    + apply elem_of_cons in Hin as [Hin|Hin]; [discriminate|].
      rewrite Forall_forall in Hloc. destruct (Hloc _ Hin).
  - inversion Hin.
Qed.

(** C10. [loadPluginConfig] fails exactly when [json.Unmarshal] does.  It
    checks no field: whatever was unmarshalled is returned as it is, with an
    empty or absent backend, address or prefix too, but for the prefix, which
    gets its ["/"], so that an empty prefix becomes ["/"].  A backend that is
    not registered is found out by [libkv.NewStore], where [cmdAdd] logs and
    exits with status 1. *)
Theorem load_checks_no_field args s :
  ((exists err, loadPluginConfig (StdinData args) = Failed err) <->
   (exists err, json_Unmarshal_LibKvConf (StdinData args) = Failed err)) /\
  (forall raw,
     json_Unmarshal_LibKvConf (StdinData args) = Got raw ->
     exists config,
       loadPluginConfig (StdinData args) = Got config /\
       StoreBackend config = StoreBackend raw /\
       Uri config = Uri raw /\
       StoreConfig config = StoreConfig raw /\
       BasePath config =
         (if HasSuffix (BasePath raw) "/" then BasePath raw
          else BasePath raw +:+ "/") /\
       (BasePath raw = "" -> BasePath config = "/")) /\
  (forall config,
     loadPluginConfig (StdinData args) = Got config ->
     StoreBackend config ∉ init ->
     cmdAdd args s =
       (Exited 1, s,
        [NewStoreCall (StoreBackend config) [Uri config]
           {| ConnectionTimeout := 10 * time_Second |};
         LogFatalCall ("Cannot create %s store" +:+ StoreBackend config)])).
Proof.
  split; [|split].
  - unfold loadPluginConfig.
    destruct (json_Unmarshal_LibKvConf (StdinData args)) as [raw|err].
    + split; intros [err Herr]; [|discriminate].
      destruct (negb _); discriminate.
    + split; intros _; eexists; reflexivity.
  - intros raw Hraw.
    destruct (loadPluginConfig (StdinData args)) as [config|err] eqn:Hload.
    + destruct (loadPluginConfig_inv _ _ Hload) as (raw' & Hraw' & Hb & Hu & Hc & Hp).
      rewrite Hraw in Hraw'. injection Hraw' as <-.
      exists config. repeat split; try assumption.
      intros Hempty. rewrite Hp, Hempty. reflexivity.
    + unfold loadPluginConfig in Hload. rewrite Hraw in Hload.
      destruct (negb _); discriminate.
  - intros config Hload Hnot. rewrite cmdAdd_run, Hload. simpl.
    rewrite bool_decide_eq_false_2 by exact Hnot. reflexivity.
Qed.

(** *** Paths *)

Lemma append_snoc (cur rest : string) (c : ascii) :
  (cur +:+ String c "") +:+ rest = cur +:+ String c rest.
Proof.
  induction cur as [|d cur IH]; [reflexivity|].
  change (String d ((cur +:+ String c "") +:+ rest) = String d (cur +:+ String c rest)).
  now rewrite IH.
Qed.

Lemma components_plain (id : string) : forall cur,
  has_separator id = false -> components id cur = [cur +:+ id].
Proof.
  induction id as [|c rest IH]; intros cur Hs.
  - cbn [components]. f_equal. induction cur as [|d cur IHc]; [reflexivity|].
    change (String d cur = String d (cur +:+ "")). now rewrite <- IHc.
  - cbn [has_separator] in Hs. apply orb_false_elim in Hs as [Hc Hrest].
    cbn [components]. rewrite Hc, (IH _ Hrest). now rewrite append_snoc.
Qed.

(** The elements of the scratch path are those of [stateDir], then those of
    the identifier. *)
Lemma scratchPath_elements (id : string) :
  scratchPath id =
    "/" +:+ String.concat "/"
              (fold_left clean_step (components id "") ["var"; "lib"; "cni"; "libkv"]).
Proof.
  unfold scratchPath, filepath_Join, Clean.
  cbn [stateDir append components Ascii.eqb Bool.eqb fold_left clean_step
       String.eqb app removelast].
  reflexivity.
Qed.

Lemma scratchPath_plain (id : string) :
  plainName id = true -> scratchPath id = stateDir +:+ "/" +:+ id.
Proof.
  unfold plainName. rewrite !andb_true_iff, !negb_true_iff.
  intros [[[Hsep Hempty] Hdot] Hdots].
  rewrite scratchPath_elements, (components_plain id "" Hsep).
  change ("" +:+ id) with id. cbn [fold_left]. unfold clean_step.
  rewrite Hempty, Hdot, Hdots. reflexivity.
Qed.

Lemma append_inj_r (p a b : string) : p +:+ a = p +:+ b -> a = b.
Proof.
  induction p as [|c p IH]; [auto|].
  change (String c (p +:+ a) = String c (p +:+ b) -> a = b).
  intros Heq. injection Heq. exact IH.
Qed.


(** An identifier spelled with a leading [./] names the same scratch file;
    with four leading [../] it names the cleaned path of what follows them,
    from the root. *)
Lemma scratchPath_dot (id : string) : scratchPath ("./" +:+ id) = scratchPath id.
Proof.
  rewrite !scratchPath_elements.
  cbn [append components Ascii.eqb Bool.eqb fold_left clean_step String.eqb].
  reflexivity.
Qed.

Lemma scratchPath_dotdot (id : string) :
  scratchPath ("../../../../" +:+ id) = Clean ("/" +:+ id).
Proof.
  rewrite scratchPath_elements. unfold Clean.
  cbn [append components Ascii.eqb Bool.eqb fold_left clean_step String.eqb
       removelast app].
  reflexivity.
Qed.

(** *** Runs in two parts *)

Lemma addCalls_addEvent (calls : list (string * bytes)) :
  addCalls (addEvent <$> calls) = calls.
Proof.
  induction calls as [|[t c] calls IH]; [reflexivity|].
  unfold addCalls in *. cbn. f_equal. exact IH.
Qed.

Lemma delCalls_delEvent (calls : list (string * bytes)) :
  delCalls (delEvent <$> calls) = calls.
Proof.
  induction calls as [|[t c] calls IH]; [reflexivity|].
  unfold delCalls in *. cbn. f_equal. exact IH.
Qed.

Lemma delCalls_addEvent (calls : list (string * bytes)) :
  delCalls (addEvent <$> calls) = [].
Proof. induction calls as [|[t c] calls IH]; [reflexivity | exact IH]. Qed.

(** The loop of [cmdAdd] over entries that all attach, followed by more
    entries: the attached entries are delegated, and the loop goes on with
    the rest, from the index and the plugin state they leave. *)
Lemma addLoop_app good : forall index result s results tail,
  attachAll good (plugins s) = Some results ->
  Some <$> delegations good = delegation <$> good /\
  exists result',
    let r := addLoop (index + length good) tail result'
               {| files := files s;
                  plugins := afterAdds (plugins s) (delegations good) |} in
    addLoop index (good ++ tail) result s =
      (outcome r, final r, (addEvent <$> delegations good) ++ events r).
Proof.
  induction good as [|conf good IH]; intros index result s results tail Hall.
  - split; [reflexivity|]. exists result. simpl.
    rewrite Nat.add_0_r. destruct s as [f p]. simpl.
    now destruct (addLoop index tail result _) as [[o s1] ev].
  - simpl in Hall. destruct (delegation conf) as [[t c]|] eqn:HD; [|discriminate].
    destruct (DelegateAdd t c (plugins s)) as [[res|err] p] eqn:HA; [|discriminate].
    destruct (attachAll good p) as [rs|] eqn:Hgood; [|discriminate].
    destruct (IH (S index) (if (index =? 0)%nat then Some res else result)
                {| files := files s; plugins := p |} rs tail Hgood)
      as [Hds [result' Hrun]].
    unfold delegations in *. cbn [omap list_omap]. rewrite HD.
    split; [cbn [fmap list_fmap]; rewrite HD; f_equal; exact Hds|].
    exists result'. rewrite <- app_comm_cons, (addLoop_delegates _ _ _ _ _ _ _ HD).
    cbn zeta. rewrite HA. cbn [fst snd]. rewrite Hrun.
    cbn [length afterAdds foldl fst snd plugins files outcome final events].
    rewrite HA, Nat.add_succ_r. reflexivity.
Qed.

Lemma delLoop_app good : forall index s p1 tail,
  detachAll good (plugins s) = Some p1 ->
  Some <$> delegations good = delegation <$> good /\
  let r := delLoop (index + length good) tail {| files := files s; plugins := p1 |} in
  delLoop index (good ++ tail) s =
    (outcome r, final r, (delEvent <$> delegations good) ++ events r).
Proof.
  induction good as [|conf good IH]; intros index s p1 tail Hall.
  - injection Hall as <-. split; [reflexivity|]. simpl.
    rewrite Nat.add_0_r. destruct s as [f p]. simpl.
    now destruct (delLoop index tail _) as [[o s1] ev].
  - simpl in Hall. destruct (delegation conf) as [[t c]|] eqn:HD; [|discriminate].
    destruct (DelegateDel t c (plugins s)) as [[err|] p] eqn:HA; [discriminate|].
    destruct (IH (S index) {| files := files s; plugins := p |} p1 tail Hall)
      as [Hds Hrun].
    unfold delegations in *. cbn [omap list_omap]. rewrite HD.
    split; [cbn [fmap list_fmap]; rewrite HD; f_equal; exact Hds|].
    rewrite <- app_comm_cons, (delLoop_delegates _ _ _ _ _ _ HD).
    cbn zeta. rewrite HA. cbn [fst snd]. cbn zeta in Hrun. rewrite Hrun.
    cbn [length fst snd plugins files outcome final events].
    rewrite Nat.add_succ_r. reflexivity.
Qed.


(** *** Setup that does not get to the list *)

(** X1. Unless [cmdAdd] fetches a value that parses, it leaves the files and
    the delegated plugins as they were: its only calls are to the store and to
    the log, and it ends with an error or by exiting with status 1. *)
Theorem cmdAdd_changes_nothing_without_a_list args s :
  (forall data L,
     fetches args data -> json_Unmarshal_netconfs data = Got L -> False) ->
  final (cmdAdd args s) = s /\
  Forall storeCall (events (cmdAdd args s)) /\
  (outcome (cmdAdd args s) = Exited 1 \/
   exists err, outcome (cmdAdd args s) = Returned (Some err)).
Proof.
  intros Hno. rewrite cmdAdd_run.
  destruct (loadPluginConfig (StdinData args)) as [config|err] eqn:Hload.
  2: { repeat split; [constructor | right; eauto]. }
  cbn zeta.
  destruct (bool_decide (StoreBackend config ∈ init)) eqn:Hin.
  2: { repeat split; [repeat constructor | now left]. }
  apply bool_decide_eq_true_1 in Hin.
  destruct (backend_New _ _ _) as [kv|] eqn:Hnew.
  2: { repeat split; [repeat constructor | now left]. }
  destruct (Store_Get kv _) as [data|] eqn:Hget.
  2: { repeat split; [repeat constructor | right; eauto]. }
  destruct (json_Unmarshal_netconfs data) as [L|] eqn:Hparse.
  2: { repeat split; [repeat constructor | right; eauto]. }
  destruct (Hno data L); [|exact Hparse].
  exists config, kv. repeat split; assumption.
Qed.

(** X2. When the scratch file cannot be written, [cmdAdd] returns that error
    under its own heading, delegates nothing and leaves the files and the
    delegated plugins as they were. *)
Theorem unsaved_list_is_not_delegated args s data L e :
  fetches args data ->
  json_Unmarshal_netconfs data = Got L ->
  outcome (saveScratchNetConf (ContainerID args) data s) = Returned (Some e) ->
  outcome (cmdAdd args s) =
    Returned (Some ("Could not save generated cni configs: " +:+ e)) /\
  final (cmdAdd args s) = s /\
  addCalls (events (cmdAdd args s)) = [] /\
  (forall x, PrintCall x ∉ events (cmdAdd args s)).
Proof.
  intros Hf Hp Hsave.
  destruct (cmdAdd_fetched args s data L Hf Hp) as (config & _ & ->).
  rewrite attach_run. cbn zeta. revert Hsave.
  unfold saveScratchNetConf, os_MkdirAll, ioutil_WriteFile, bind, emit, ret, outcome.
  cbn. fold (scratchPath (ContainerID args)).
  destruct (MkdirAll_fault stateDir) as [e1|]; cbn.
  - intros [= <-]. repeat split. intros x Hin.
    repeat (apply elem_of_cons in Hin as [Hin|Hin]; [discriminate|]). inversion Hin.
  - destruct (WriteFile_fault (scratchPath (ContainerID args))) as [e2|]; cbn;
      [|discriminate].
    intros [= <-]. repeat split. intros x Hin.
    repeat (apply elem_of_cons in Hin as [Hin|Hin]; [discriminate|]). inversion Hin.
Qed.

(** *** A delegation that fails *)

(** X3. When an entry fails to attach after the entries before it have
    attached, [cmdAdd] returns the error of that delegation as it is and
    stops: the later entries are not delegated, nothing is printed, and
    nothing is undone, no detach is delegated, the entries before stay
    attached and the scratch file stays, with the fetched bytes. *)
Theorem failed_attach_is_not_rolled_back args s data good bad rest results t c err :
  fetches args data ->
  json_Unmarshal_netconfs data = Got (good ++ bad :: rest) ->
  MkdirAll_fault stateDir = None ->
  WriteFile_fault (scratchPath (ContainerID args)) = None ->
  attachAll good (plugins s) = Some results ->
  delegation bad = Some (t, c) ->
  (DelegateAdd t c (afterAdds (plugins s) (delegations good))).1 = Failed err ->
  outcome (cmdAdd args s) = Returned (Some err) /\
  addCalls (events (cmdAdd args s)) = delegations good ++ [(t, c)] /\
  delCalls (events (cmdAdd args s)) = [] /\
  (forall x, PrintCall x ∉ events (cmdAdd args s)) /\
  plugins (final (cmdAdd args s)) =
    (DelegateAdd t c (afterAdds (plugins s) (delegations good))).2 /\
  files (final (cmdAdd args s)) !! scratchPath (ContainerID args) = Some data.
Proof.
  intros Hf Hp Hm Hw Hall HD Hfail.
  destruct (cmdAdd_fetched args s data _ Hf Hp) as (config & _ & ->).
  rewrite attach_run, Hm, Hw. cbn zeta.
  destruct (addLoop_app good 0 None
    {| files := <[scratchPath (ContainerID args) := data]> (files s);
       plugins := plugins s |} results (bad :: rest) Hall)
    as [_ [result' Hrun]].
  cbn zeta in Hrun. cbn [plugins files] in Hrun.
  rewrite (addLoop_delegates _ _ _ _ _ _ _ HD) in Hrun.
  cbn zeta in Hrun. cbn [plugins files] in Hrun. rewrite Hfail in Hrun.
  rewrite Hrun. cbn.
  unfold addCalls, delCalls. cbn. rewrite !omap_app.
  fold (addCalls (addEvent <$> delegations good)).
  fold (delCalls (addEvent <$> delegations good)).
  rewrite addCalls_addEvent, delCalls_addEvent. cbn.
  repeat split.
  - intros x Hin.
    repeat (apply elem_of_cons in Hin as [Hin|Hin]; [discriminate|]).
    apply elem_of_app in Hin as [Hin|Hin].
    + apply list_elem_of_fmap in Hin as ([t' c'] & Heq & _). discriminate.
    + apply list_elem_of_singleton in Hin. discriminate.
  - apply lookup_insert_eq.
Qed.

(** X4. When an entry fails to detach after the entries before it have
    detached, [cmdDel] returns the error of that delegation as it is and
    stops: the later entries are not delegated, and the scratch file is gone
    all the same. *)
Theorem failed_detach_stops_teardown args s data good bad rest p1 t c err :
  files s !! scratchPath (ContainerID args) = Some data ->
  json_Unmarshal_netconfs data = Got (good ++ bad :: rest) ->
  detachAll good (plugins s) = Some p1 ->
  delegation bad = Some (t, c) ->
  (DelegateDel t c p1).1 = Some err ->
  outcome (cmdDel args s) = Returned (Some err) /\
  events (cmdDel args s) =
    ReadFileCall (scratchPath (ContainerID args))
    :: RemoveCall (scratchPath (ContainerID args))
    :: (delEvent <$> delegations good) ++ [DelegateDelCall t c] /\
  plugins (final (cmdDel args s)) = (DelegateDel t c p1).2 /\
  files (final (cmdDel args s)) = delete (scratchPath (ContainerID args)) (files s).
Proof.
  intros Hs Hp Hall HD Hfail.
  rewrite cmdDel_run. cbn zeta. rewrite Hs, Hp.
  destruct (delLoop_app good 0
    {| files := delete (scratchPath (ContainerID args)) (files s);
       plugins := plugins s |} p1 (bad :: rest) Hall) as [_ Hrun].
  cbn zeta in Hrun. cbn [plugins files] in Hrun.
  rewrite (delLoop_delegates _ _ _ _ _ _ HD) in Hrun.
  cbn zeta in Hrun. cbn [plugins files] in Hrun. rewrite Hfail in Hrun.
  rewrite Hrun. cbn. repeat split.
Qed.


(** *** Teardown *)

Lemma delLoop_events_teardown L index s :
  Forall teardownCall (events (delLoop index L s)).
Proof.
  destruct (delLoop_calls L index s) as (n & _ & He & _).
  rewrite He. apply Forall_fmap, Forall_forall. intros [t c] _. exact I.
Qed.

(** X5. [cmdDel] reads nothing but the container identifier and the scratch
    file: two invocations for the same container with different
    configurations on standard input run alike, and every call it makes is
    the read, the removal or a detach delegation, never a call to the
    store. *)
Theorem teardown_ignores_configuration args args' s :
  ContainerID args = ContainerID args' ->
  cmdDel args s = cmdDel args' s /\
  Forall teardownCall (events (cmdDel args s)).
Proof.
  intros Hid. split.
  - rewrite !cmdDel_run, Hid. reflexivity.
  - rewrite cmdDel_run. cbn zeta.
    destruct (files s !! _) as [data|]; [|repeat constructor].
    destruct (json_Unmarshal_netconfs data) as [L|]; [|repeat constructor].
    unfold events at 1. cbn. repeat (constructor; [exact I|]).
    apply delLoop_events_teardown.
Qed.

(** When every entry asks for a delegation, the loop of [cmdDel] ends
    without error or with the error of a detach delegation it made. *)
Lemma delLoop_typed L : forall index s,
  Forall (fun conf => is_Some (delegation conf)) L ->
  let r := delLoop index L s in
  outcome r = Returned None \/
  exists err t c p,
    DelegateDelCall t c ∈ events r /\
    (DelegateDel t c p).1 = Some err /\
    outcome r = Returned (Some err).
Proof.
  induction L as [|conf rest IH]; intros index s Hall r; subst r.
  - now left.
  - apply Forall_cons in Hall as [[[t c] HD] Hrest].
    rewrite (delLoop_delegates _ _ _ _ _ _ HD). cbn zeta.
    destruct (DelegateDel t c (plugins s)) as [[err|] p] eqn:HA; cbn [fst snd].
    + right. exists err, t, c, (plugins s). rewrite HA.
      repeat split. apply list_elem_of_here.
    + destruct (IH (S index) {| files := files s; plugins := p |} Hrest)
        as [Hok|(err & t' & c' & p' & Hin & Hfail & Hout)].
      * now left.
      * right. exists err, t', c', p'. repeat split; try assumption.
        now apply list_elem_of_further.
Qed.

(** A setup that returned no error has delegated every entry. *)
Lemma setup_types_every_entry args s data L :
  fetches args data ->
  json_Unmarshal_netconfs data = Got L ->
  outcome (cmdAdd args s) = Returned None ->
  Forall (fun conf => is_Some (delegation conf)) L.
Proof.
  intros Hf Hp Hok.
  destruct (cmdAdd_fetched args s data L Hf Hp) as (config & _ & Hrun).
  rewrite Hrun in Hok.
  destruct (attach_calls (ContainerID args) data L s) as (n & _ & Hc & _ & Ho).
  rewrite (Ho Hok), firstn_all in Hc.
  apply Forall_forall. intros conf Hin.
  assert (Hin' : delegation conf ∈ delegation <$> L) by now apply list_elem_of_fmap_2.
  rewrite <- Hc in Hin'. apply list_elem_of_fmap in Hin' as (call & -> & _). eauto.
Qed.

(** A setup that returned no error has written the scratch file. *)
Lemma setup_wrote_scratch args s data L :
  fetches args data ->
  json_Unmarshal_netconfs data = Got L ->
  outcome (cmdAdd args s) = Returned None ->
  MkdirAll_fault stateDir = None /\
  WriteFile_fault (scratchPath (ContainerID args)) = None.
Proof.
  intros Hf Hp Hok.
  destruct (cmdAdd_fetched args s data L Hf Hp) as (config & _ & Hrun).
  rewrite Hrun in Hok. unfold outcome at 1 in Hok. cbn [fst] in Hok.
  rewrite attach_run in Hok. cbn zeta in Hok.
  destruct (MkdirAll_fault stateDir); [discriminate|].
  destruct (WriteFile_fault _); [discriminate|]. now split.
Qed.

(** X6. After a setup that returned no error, the teardown of the same
    container finds the scratch copy, parses it and can make the delegation
    of every entry: it does not panic, and it returns no error unless a
    detach delegation it made returned one, which it passes on. *)
Theorem teardown_after_setup_fails_only_in_a_plugin args s data L p :
  fetches args data ->
  json_Unmarshal_netconfs data = Got L ->
  outcome (cmdAdd args s) = Returned None ->
  let del := cmdDel args {| files := files (final (cmdAdd args s)); plugins := p |} in
  events del !! 0 = Some (ReadFileCall (scratchPath (ContainerID args))) /\
  (outcome del = Returned None \/
   exists err t c p',
     DelegateDelCall t c ∈ events del /\
     (DelegateDel t c p').1 = Some err /\
     outcome del = Returned (Some err)).
Proof.
  intros Hf Hp Hok del.
  pose proof (setup_types_every_entry args s data L Hf Hp Hok) as Htyped.
  assert (Hfile : files (final (cmdAdd args s)) !! scratchPath (ContainerID args)
                  = Some data).
  { destruct (setup_wrote_scratch args s data L Hf Hp Hok) as [Hm Hw].
    rewrite (cmdAdd_files args s data L Hf Hp Hm Hw). apply lookup_insert_eq. }
  subst del. rewrite cmdDel_run. cbn zeta. cbn [files plugins].
  rewrite Hfile, Hp. split; [reflexivity|].
  destruct (delLoop_typed L 0
    {| files := delete (scratchPath (ContainerID args)) (files (final (cmdAdd args s)));
       plugins := p |} Htyped) as [Hnone|(err & t & c & p' & Hin & Hfail & Hout)].
  - left. exact Hnone.
  - right. exists err, t, c, p'. repeat split; try assumption.
    unfold events at 1. cbn. now do 2 apply list_elem_of_further.
Qed.

(** *** Files of other containers *)

Lemma attach_frame containerID data L s q :
  q <> scratchPath containerID ->
  files (final (attach containerID data L s)) !! q = files s !! q.
Proof.
  intros Hq. rewrite attach_run. cbn zeta.
  destruct (MkdirAll_fault stateDir); [reflexivity|].
  destruct (WriteFile_fault _); [reflexivity|].
  pose proof (addLoop_files L 0 None
    {| files := <[scratchPath containerID := data]> (files s);
       plugins := plugins s |}) as Hfiles.
  destruct (outcome _) as [[result|e]|msg|code]; unfold final at 1; cbn;
    rewrite Hfiles; cbn; now rewrite lookup_insert_ne.
Qed.

Lemma cmdAdd_frame args s q :
  q <> scratchPath (ContainerID args) ->
  files (final (cmdAdd args s)) !! q = files s !! q.
Proof.
  intros Hq. rewrite cmdAdd_run.
  destruct (loadPluginConfig _) as [config|]; [|reflexivity]. cbn zeta.
  destruct (if bool_decide _ then _ else _) as [kv|]; [|reflexivity].
  destruct (Store_Get _ _) as [data|]; [|reflexivity].
  destruct (json_Unmarshal_netconfs data) as [L|]; [|reflexivity].
  unfold final at 1. cbn. now apply attach_frame.
Qed.

Lemma cmdDel_frame args s q :
  q <> scratchPath (ContainerID args) ->
  files (final (cmdDel args s)) !! q = files s !! q.
Proof.
  intros Hq. rewrite cmdDel_run. cbn zeta.
  destruct (files s !! scratchPath _) as [data|];
    [|unfold final; cbn; now rewrite lookup_delete_ne].
  destruct (json_Unmarshal_netconfs data) as [L|];
    [|unfold final; cbn; now rewrite lookup_delete_ne].
  unfold final at 1. cbn.
  change ((delLoop 0 L ?s0).1.2) with (final (delLoop 0 L s0)).
  rewrite delLoop_files. cbn. now rewrite lookup_delete_ne.
Qed.


(** X8. For an identifier that is one path element, the scratch file is
    [stateDir], the separator and the identifier; so two such containers
    have different scratch files, and the setup and the teardown of one
    leave the scratch copy of the other as it is. *)
Theorem plain_containers_are_kept_apart args s id :
  plainName id = true ->
  plainName (ContainerID args) = true ->
  id <> ContainerID args ->
  scratchPath id = stateDir +:+ "/" +:+ id /\
  scratchPath id <> scratchPath (ContainerID args) /\
  files (final (cmdAdd args s)) !! scratchPath id = files s !! scratchPath id /\
  files (final (cmdDel args s)) !! scratchPath id = files s !! scratchPath id.
Proof.
  intros Hid Hown Hne.
  assert (Hpath : scratchPath id <> scratchPath (ContainerID args)).
  { rewrite !scratchPath_plain by assumption. intros Heq.
    apply Hne. apply (append_inj_r "/"), (append_inj_r stateDir). exact Heq. }
  repeat split.
  - now apply scratchPath_plain.
  - exact Hpath.
  - now apply cmdAdd_frame.
  - now apply cmdDel_frame.
Qed.


(** *** Identifiers that are not one path element *)

(** X9. The container identifier goes into the scratch path unchecked, and
    the path is cleaned: an identifier and the same identifier after [./]
    name one scratch file, so the teardown asked for under the second
    spelling is the teardown of the first, and consumes its scratch copy. *)
Theorem dot_spelling_shares_the_scratch_file args args' s :
  ContainerID args' = "./" +:+ ContainerID args ->
  scratchPath (ContainerID args') = scratchPath (ContainerID args) /\
  cmdDel args' s = cmdDel args s /\
  files (final (cmdDel args' s)) !! scratchPath (ContainerID args) = None.
Proof.
  intros Hid.
  assert (Hpath : scratchPath (ContainerID args') = scratchPath (ContainerID args))
    by (rewrite Hid; apply scratchPath_dot).
  assert (Hsame : cmdDel args' s = cmdDel args s)
    by (rewrite !cmdDel_run, Hpath; reflexivity).
  repeat split; try assumption.
  rewrite Hsame, cmdDel_run. cbn zeta.
  destruct (files s !! scratchPath _) as [data|]; [|apply lookup_delete_eq].
  destruct (json_Unmarshal_netconfs data) as [L|]; [|apply lookup_delete_eq].
  unfold final at 1. cbn.
  change ((delLoop 0 L ?s0).1.2) with (final (delLoop 0 L s0)).
  rewrite delLoop_files. apply lookup_delete_eq.
Qed.

(** X10. Nothing keeps the scratch file inside [stateDir]: for an identifier
    that starts with four [../], the scratch path is the cleaned path of the
    rest, from the root, and that is the file a setup for it writes the
    fetched bytes to. *)
Theorem dotdot_spelling_leaves_the_state_directory args s data L rest :
  ContainerID args = "../../../../" +:+ rest ->
  fetches args data ->
  json_Unmarshal_netconfs data = Got L ->
  MkdirAll_fault stateDir = None ->
  WriteFile_fault (Clean ("/" +:+ rest)) = None ->
  scratchPath (ContainerID args) = Clean ("/" +:+ rest) /\
  WriteFileCall (Clean ("/" +:+ rest)) data mode_0600 ∈ events (cmdAdd args s) /\
  files (final (cmdAdd args s)) !! Clean ("/" +:+ rest) = Some data.
Proof.
  intros Hid Hf Hp Hm Hw.
  assert (Hpath : scratchPath (ContainerID args) = Clean ("/" +:+ rest))
    by (rewrite Hid; apply scratchPath_dotdot).
  rewrite <- Hpath in Hw |- *. split; [reflexivity|]. split.
  - destruct (cmdAdd_fetched args s data L Hf Hp) as (config & _ & ->).
    unfold events at 1. cbn. rewrite attach_run, Hm, Hw. cbn zeta.
    destruct (outcome _) as [[result|e]|msg|code]; unfold events; cbn;
      do 3 apply list_elem_of_further; apply list_elem_of_here.
  - rewrite (cmdAdd_files args s data L Hf Hp Hm Hw). apply lookup_insert_eq.
Qed.

(** *** Keys *)

Lemma cmdAdd_get_key args s config key :
  loadPluginConfig (StdinData args) = Got config ->
  GetCall key ∈ events (cmdAdd args s) ->
  key = BasePath config +:+ ContainerID args.
Proof.
  intros Hload Hin.
  destruct (cmdAdd_store_calls args s config Hload) as (rest & He & Hrest).
  rewrite He in Hin. apply elem_of_cons in Hin as [Hin|Hin]; [discriminate|].
  destruct Hrest as [->|(rest' & -> & Hloc)].
  - apply list_elem_of_singleton in Hin. discriminate.
  - apply elem_of_cons in Hin as [Hin|Hin]; [now injection Hin|].
    rewrite Forall_forall in Hloc. destruct (Hloc _ Hin).
Qed.

(** X11. Under one configuration, two setups that ask the store for the same
    key are setups of the same container: no two identifiers share a store
    key. *)
Theorem one_key_one_container args args' s s' key :
  StdinData args = StdinData args' ->
  GetCall key ∈ events (cmdAdd args s) ->
  GetCall key ∈ events (cmdAdd args' s') ->
  ContainerID args = ContainerID args'.
Proof.
  intros Hstdin Hin Hin'.
  destruct (loadPluginConfig (StdinData args)) as [config|err] eqn:Hload.
  - assert (Hload' : loadPluginConfig (StdinData args') = Got config)
      by now rewrite <- Hstdin.
    apply (cmdAdd_get_key _ _ _ _ Hload) in Hin.
    apply (cmdAdd_get_key _ _ _ _ Hload') in Hin'.
    rewrite Hin in Hin'. exact (append_inj_r _ _ _ Hin').
  - rewrite cmdAdd_run, Hload in Hin. inversion Hin.
Qed.

(** X12. A prefix configured without its final separator and the same prefix
    with it make no difference: the two configurations are loaded into the
    same value, and the setups run alike. *)
Theorem trailing_separator_is_immaterial args args' s raw raw' :
  ContainerID args = ContainerID args' ->
  json_Unmarshal_LibKvConf (StdinData args) = Got raw ->
  json_Unmarshal_LibKvConf (StdinData args') = Got raw' ->
  StoreBackend raw' = StoreBackend raw ->
  Uri raw' = Uri raw ->
  StoreConfig raw' = StoreConfig raw ->
  HasSuffix (BasePath raw) "/" = false ->
  BasePath raw' = BasePath raw +:+ "/" ->
  loadPluginConfig (StdinData args) = loadPluginConfig (StdinData args') /\
  cmdAdd args s = cmdAdd args' s.
Proof.
  intros Hid Hraw Hraw' Hb Hu Hc Hs Hp.
  assert (Hload : loadPluginConfig (StdinData args) = loadPluginConfig (StdinData args')).
  { unfold loadPluginConfig. rewrite Hraw, Hraw', Hp, HasSuffix_app, Hs. cbn.
    destruct raw' as [b u p c]. cbn in *. now subst. }
  split; [exact Hload|]. rewrite !cmdAdd_run, Hload, Hid. reflexivity.
Qed.


(** *** Setup and the scratch directory *)

(** The loop of [cmdAdd] does not look at the files. *)
Lemma addLoop_reads_no_file L : forall index result s s',
  plugins s = plugins s' ->
  outcome (addLoop index L result s) = outcome (addLoop index L result s') /\
  events (addLoop index L result s) = events (addLoop index L result s') /\
  plugins (final (addLoop index L result s)) =
    plugins (final (addLoop index L result s')).
Proof.
  induction L as [|conf rest IH]; intros index result s s' Hpl.
  - repeat split. exact Hpl.
  - destruct (delegation conf) as [[t c]|] eqn:HD.
    + rewrite !(addLoop_delegates _ _ _ _ _ _ _ HD). cbn zeta. rewrite <- Hpl.
      destruct (DelegateAdd t c (plugins s)) as [[res|err] p]; cbn [fst snd];
        [|repeat split].
      destruct (IH (S index) (if (index =? 0)%nat then Some res else result)
                  {| files := files s; plugins := p |}
                  {| files := files s'; plugins := p |} eq_refl)
        as (Ho & He & Hp).
      unfold outcome, events, final in *. cbn. rewrite Ho, He, Hp. repeat split.
    + destruct (json_Marshal conf) as [b|err] eqn:HM.
      * cbn [addLoop]. rewrite HM. unfold delegation in HD. rewrite HM in HD.
        unfold bind, assert_string, panic.
        destruct (conf !! "type") as [[]|]; try discriminate; cbn;
          repeat split; exact Hpl.
      * rewrite !(addLoop_unserializable _ _ _ _ _ _ HM). repeat split. exact Hpl.
Qed.

(** X13. [cmdAdd] does not read the scratch directory: whatever files are
    there, a scratch copy left by an earlier setup too, its outcome, its
    calls and the state it leaves the delegated plugins in are the same. *)
Theorem setup_reads_no_file args s s' :
  plugins s = plugins s' ->
  outcome (cmdAdd args s) = outcome (cmdAdd args s') /\
  events (cmdAdd args s) = events (cmdAdd args s') /\
  plugins (final (cmdAdd args s)) = plugins (final (cmdAdd args s')).
Proof.
  intros Hpl. rewrite !cmdAdd_run.
  destruct (loadPluginConfig _) as [config|]; [|repeat split; exact Hpl].
  cbn zeta.
  destruct (if bool_decide _ then _ else _) as [kv|]; [|repeat split; exact Hpl].
  destruct (Store_Get _ _) as [data|]; [|repeat split; exact Hpl].
  destruct (json_Unmarshal_netconfs data) as [L|]; [|repeat split; exact Hpl].
  rewrite !attach_run. cbn zeta.
  destruct (MkdirAll_fault stateDir); [repeat split; exact Hpl|].
  destruct (WriteFile_fault _); [repeat split; exact Hpl|].
  destruct (addLoop_reads_no_file L 0 None
    {| files := <[scratchPath (ContainerID args) := data]> (files s);
       plugins := plugins s |}
    {| files := <[scratchPath (ContainerID args) := data]> (files s');
       plugins := plugins s' |} Hpl) as (Ho & He & Hp).
  rewrite <- Ho, <- He.
  destruct (outcome (addLoop 0 L None _)) as [[result|e]|msg|code];
    unfold outcome, events, final in *; cbn; rewrite Hp; repeat split.
Qed.


End Facts.

(** ** Worked examples

    The commands run on the host of [Demo], with the configuration and the
    networks of Documentation/libkv.md. *)

(** On the host of [Demo] the fetch succeeds when the configuration loads with
    a registered backend and the store holds the key. *)
Lemma demo_fetches remote broken readonly args config data :
  @loadPluginConfig (Demo.host remote broken readonly) (StdinData args) = Got config ->
  StoreBackend config ∈ init ->
  remote !! (BasePath config +:+ ContainerID args) = Some data ->
  @fetches (Demo.host remote broken readonly) args data.
Proof.
  intros Hload Hin Hget. exists config, remote.
  split; [exact Hload|]. split; [exact Hin|]. split; [reflexivity|].
  simpl. now rewrite Hget.
Qed.

Lemma etcd_registered : "etcd" ∈ init.
Proof. unfold init, CONSUL, ETCD, ZK. set_solver. Qed.

(** With the documented configuration, the value stored under
    [cni/testcontainer] is fetched. *)
Lemma etcd_fetches value :
  @fetches (Demo.etcd value) Demo.testcontainer (Demo.text value).
Proof.
  apply (demo_fetches _ _ _ _
           {| StoreBackend := "etcd"; Uri := "localhost:2379"; BasePath := "cni/";
              StoreConfig := ∅ |}).
  - vm_compute. reflexivity.
  - exact etcd_registered.
  - apply (lookup_singleton_eq (M := gmap string)).
Qed.

(** The documented setup: the first delegation, to [bridge], is the fifth
    call, and the write of the fetched bytes is the fourth. *)
Lemma scratch_write_precedes_delegation_witness :
  let h := Demo.etcd Demo.two_networks in
  let run := @cmdAdd h Demo.testcontainer Demo.boot in
  events run !! 4 = Some (DelegateAddCall "bridge" (Demo.text Demo.bridge_conf)) /\
  exists j,
    j < 4 /\
    events run !! j =
      Some (WriteFileCall Demo.scratch (Demo.text Demo.two_networks) mode_0600) /\
    (forall k, k < j -> addCall <$> events run !! k = Some None) /\
    WriteFile_fault Demo.scratch = None /\
    files (final run) !! Demo.scratch = Some (Demo.text Demo.two_networks).
Proof.
  intros h run.
  assert (Hcall : events run !! 4
                  = Some (DelegateAddCall "bridge" (Demo.text Demo.bridge_conf)))
    by (vm_compute; reflexivity).
  split; [exact Hcall|].
  apply (@scratch_write_precedes_delegation h Demo.testcontainer Demo.boot
           (Demo.text Demo.two_networks) (Demo.parsed Demo.two_networks)
           4 "bridge" (Demo.text Demo.bridge_conf)).
  - apply etcd_fetches.
  - vm_compute. reflexivity.
  - exact Hcall.
Defined.

(** C2 fails on the code: the store value [[]] parses to the empty list, and
    [cmdAdd] writes the scratch file and returns no error; [cmdDel] on that
    scratch file returns no error either. *)
Lemma empty_list_is_not_an_error :
  let h := Demo.etcd "[]" in
  let add := @cmdAdd h Demo.testcontainer Demo.boot in
  let del := @cmdDel h Demo.testcontainer (final add) in
  @fetches h Demo.testcontainer (Demo.text "[]") /\
  json_Unmarshal_netconfs (Demo.text "[]") = Got [] /\
  outcome add = Returned None /\
  WriteFileCall Demo.scratch (Demo.text "[]") mode_0600 ∈ events add /\
  files (final add) !! Demo.scratch = Some (Demo.text "[]") /\
  outcome del = Returned None.
Proof.
  intros h add del. split; [apply etcd_fetches|].
  split; [reflexivity|]. split; [vm_compute; reflexivity|].
  split; [|split; vm_compute; reflexivity].
  apply list_elem_of_lookup. exists 3. vm_compute. reflexivity.
Qed.

(** The empty list on the host of [Demo]: setup and teardown both go
    through, without a delegation. *)
Lemma empty_list_is_a_no_op_witness :
  let h := Demo.etcd "[]" in
  let add := @cmdAdd h Demo.testcontainer Demo.boot in
  let del := @cmdDel h Demo.testcontainer (final add) in
  (outcome add = Returned (Result_Print None) /\
   addCalls (events add) = [] /\
   last (events add) = Some (PrintCall None) /\
   files (final add) !! Demo.scratch = Some (Demo.text "[]")) /\
  (outcome del = Returned None /\ delCalls (events del) = []).
Proof.
  intros h add del.
  assert (Hparse : @json_Unmarshal_netconfs h (Demo.text "[]") = Got [])
    by reflexivity.
  split.
  - apply (proj1 (@empty_list_is_a_no_op h Demo.testcontainer Demo.boot
                    (Demo.text "[]") Hparse)).
    + apply etcd_fetches.
    + reflexivity.
    + reflexivity.
  - apply (proj2 (@empty_list_is_a_no_op h Demo.testcontainer (final add)
                    (Demo.text "[]") Hparse)).
    vm_compute. reflexivity.
Defined.

(** The documented setup and its teardown: [bridge], then [loopback], both
    times. *)
Lemma delegation_in_index_order_witness :
  let h := Demo.etcd Demo.two_networks in
  let add := @cmdAdd h Demo.testcontainer Demo.boot in
  let del := @cmdDel h Demo.testcontainer (final add) in
  (addCalls (events add)).*1 = ["bridge"; "loopback"] /\
  Some <$> addCalls (events add) = delegation <$> Demo.parsed Demo.two_networks /\
  delCalls (events del) = addCalls (events add).
Proof.
  intros h add del.
  destruct (@delegation_in_index_order h Demo.testcontainer Demo.boot
              (final add) (Demo.text Demo.two_networks)
              (Demo.parsed Demo.two_networks)) as (_ & _ & Hsame).
  - apply etcd_fetches.
  - vm_compute. reflexivity.
  - vm_compute. reflexivity.
  - split; [vm_compute; reflexivity|].
    apply Hsame; vm_compute; reflexivity.
Defined.

(** The documented setup prints the result of [bridge]. *)
Lemma first_result_is_returned_witness :
  let h := Demo.etcd Demo.two_networks in
  let add := @cmdAdd h Demo.testcontainer Demo.boot in
  attachAll (Demo.parsed Demo.two_networks) [] =
    Some ["result of bridge"; "result of loopback"] /\
  outcome add = Returned None /\
  last (events add) = Some (PrintCall (Some "result of bridge")) /\
  (forall x, PrintCall x ∈ events add -> x = Some "result of bridge").
Proof.
  intros h add.
  assert (Hall : @attachAll h (Demo.parsed Demo.two_networks) []
                 = Some ["result of bridge"; "result of loopback"])
    by (vm_compute; reflexivity).
  split; [exact Hall|].
  destruct (Demo.parsed Demo.two_networks) as [|conf rest] eqn:HL;
    [discriminate|].
  destruct (@first_result_is_returned h Demo.testcontainer Demo.boot
              (Demo.text Demo.two_networks) conf rest
              "result of bridge" ["result of loopback"])
    as (_ & Hout & Hlast & Honly).
  - apply etcd_fetches.
  - rewrite <- HL. vm_compute. reflexivity.
  - reflexivity.
  - reflexivity.
  - exact Hall.
  - repeat split; assumption.
Defined.

(** The documented setup leaves the fetched bytes for the teardown to read. *)
Lemma scratch_round_trip_witness :
  let h := Demo.etcd Demo.two_networks in
  let add := @cmdAdd h Demo.testcontainer Demo.boot in
  WriteFileCall (scratchPath (ContainerID Demo.testcontainer))
    (Demo.text Demo.two_networks) mode_0600 ∈ events add /\
  outcome (@consumeScratchNetConf h "testcontainer"
             {| files := files (final add); plugins := ["bridge"] |})
    = Returned (Got (Demo.text Demo.two_networks)).
Proof.
  intros h add.
  apply (@scratch_round_trip h Demo.testcontainer Demo.boot
           (Demo.text Demo.two_networks) (Demo.parsed Demo.two_networks)
           ["bridge"]).
  - apply etcd_fetches.
  - vm_compute. reflexivity.
  - reflexivity.
  - reflexivity.
Defined.

(** On the store value [untyped_second], whose second entry has no
    ["type"], [cmdAdd] attaches the first entry and panics. *)
Lemma untyped_entry_panics_witness :
  let h := Demo.etcd Demo.untyped_second in
  let add := @cmdAdd h Demo.testcontainer Demo.boot in
  outcome add = Panicked "interface conversion: interface {} is nil, not string" /\
  (exists msg, outcome add = Panicked msg) /\
  (addCalls (events add)).*1 = ["bridge"] /\
  plugins (final add) = ["bridge"].
Proof.
  intros h add.
  split; [vm_compute; reflexivity|].
  destruct (Demo.parsed Demo.untyped_second) as [|good [|bad rest]] eqn:HL;
    try discriminate.
  destruct (@untyped_entry_panics h Demo.testcontainer Demo.boot
              (Demo.text Demo.untyped_second) [good] bad rest
              ["result of bridge"] (Demo.text "{'name':'lo'}"))
    as [Hpanic _].
  - apply etcd_fetches.
  - change ([good] ++ bad :: rest) with (good :: bad :: rest).
    rewrite <- HL. vm_compute. reflexivity.
  - reflexivity.
  - reflexivity.
  - injection HL as <- _ _. vm_compute. reflexivity.
  - injection HL as _ <- _. vm_compute. reflexivity.
  - injection HL as _ <- _. intros t. vm_compute. discriminate.
  - split; [exact Hpanic|]. split; vm_compute; reflexivity.
Defined.

(** A prefix configured as [cni], without the separator, gives the key
    [cni/testcontainer]. *)
Lemma store_key_is_prefix_plus_id_witness :
  let h := Demo.etcd Demo.two_networks in
  let args := Demo.args "testcontainer" Demo.timeout_conf in
  exists config,
    @loadPluginConfig h (StdinData args) = Got config /\
    BasePath config = "cni/" /\
    HasSuffix (BasePath config) "/" = true /\
    (forall key, GetCall key ∈ events (@cmdAdd h args Demo.boot) ->
       key = "cni/testcontainer") /\
    events (@cmdAdd h args Demo.boot) !! 1 = Some (GetCall "cni/testcontainer").
Proof.
  intros h args.
  assert (Hload : @loadPluginConfig h (StdinData args) =
            Got {| StoreBackend := "etcd"; Uri := "localhost:2379";
                   BasePath := "cni/";
                   StoreConfig := {[ "connectionTimeout" := "30" ]} |})
    by (vm_compute; reflexivity).
  eexists. split; [exact Hload|]. split; [reflexivity|].
  destruct (@store_key_is_prefix_plus_id h args Demo.boot _ Hload)
    as (Hsuffix & _ & Hkey & Hcall).
  split; [exact Hsuffix|]. split; [exact Hkey|].
  apply (Hcall {[ "cni/testcontainer" := Demo.text Demo.two_networks ]}).
  - exact etcd_registered.
  - reflexivity.
Defined.

(** The configuration [timeout_conf] asks for a connection timeout of 30;
    the store is created with ten seconds. *)
Lemma connection_timeout_is_fixed_witness :
  let h := Demo.etcd Demo.two_networks in
  let args := Demo.args "testcontainer" Demo.timeout_conf in
  (exists config,
     @loadPluginConfig h (StdinData args) = Got config /\
     StoreConfig config !! "connectionTimeout" = Some "30") /\
  exists options,
    events (@cmdAdd h args Demo.boot) !! 0 =
      Some (NewStoreCall "etcd" ["localhost:2379"] options) /\
    ConnectionTimeout options = 10000000000%Z.
Proof.
  intros h args. split.
  - exists {| StoreBackend := "etcd"; Uri := "localhost:2379"; BasePath := "cni/";
               StoreConfig := {[ "connectionTimeout" := "30" ]} |}.
    split; [vm_compute; reflexivity|].
    apply (lookup_singleton_eq (M := gmap string)).
  - exists {| ConnectionTimeout := 10 * time_Second |}.
    assert (Hcall : events (@cmdAdd h args Demo.boot) !! 0 =
              Some (NewStoreCall "etcd" ["localhost:2379"]
                      {| ConnectionTimeout := 10 * time_Second |}))
      by (vm_compute; reflexivity).
    split; [exact Hcall|].
    apply (@connection_timeout_is_fixed h args Demo.boot "etcd" ["localhost:2379"]).
    apply list_elem_of_lookup. exists 0. exact Hcall.
Defined.

(** The configuration [{}] loads, with the prefix [/]; its empty backend is
    refused when the store is created, and the process exits. *)
Lemma load_checks_no_field_witness :
  let h := Demo.etcd Demo.two_networks in
  let args := Demo.args "testcontainer" "{}" in
  (exists config,
     @loadPluginConfig h (StdinData args) = Got config /\
     StoreBackend config = "" /\ Uri config = "" /\ BasePath config = "/") /\
  @cmdAdd h args Demo.boot =
    (Exited 1, Demo.boot,
     [NewStoreCall "" [""] {| ConnectionTimeout := 10 * time_Second |};
      LogFatalCall "Cannot create %s store"]).
Proof.
  intros h args.
  destruct (@load_checks_no_field h args Demo.boot) as (_ & Hload & Hexit).
  destruct (Hload {| StoreBackend := ""; Uri := ""; BasePath := "";
                     StoreConfig := ∅ |})
    as (config & Hc & Hb & Hu & _ & _ & Hp); [vm_compute; reflexivity|].
  simpl in Hb, Hu, Hp. split.
  - exists config. repeat split; auto.
  - rewrite (Hexit config Hc).
    + rewrite Hb, Hu. reflexivity.
    + rewrite Hb. intros Hin.
      repeat (apply elem_of_cons in Hin as [Hin|Hin]; [discriminate|]).
      inversion Hin.
Defined.

(** The documented teardown, and a second one: the first removes the scratch
    file, the second finds none and delegates nothing. *)
Lemma scratch_record_is_consumed_witness :
  let h := Demo.etcd Demo.two_networks in
  let add := @cmdAdd h Demo.testcontainer Demo.boot in
  let del := @cmdDel h Demo.testcontainer (final add) in
  let again := @cmdDel h Demo.testcontainer
                 {| files := files (final del); plugins := [] |} in
  outcome del = Returned None /\
  files (final del) !! scratchPath (ContainerID Demo.testcontainer) = None /\
  outcome again =
    Returned (Some "open /var/lib/cni/libkv/testcontainer: no such file or directory") /\
  events again = [ReadFileCall Demo.scratch; RemoveCall Demo.scratch].
Proof.
  intros h add del again.
  split; [vm_compute; reflexivity|].
  exact (@scratch_record_is_consumed h Demo.testcontainer (final add) []).
Defined.

(** *** Further examples *)

(** With the documented configuration, whatever plugins are broken and
    whether the scratch directory can be written, the value stored under
    [cni/testcontainer] is fetched. *)
Lemma store_fetches value broken readonly :
  @fetches (Demo.host {[ "cni/testcontainer" := Demo.text value ]} broken readonly)
    Demo.testcontainer (Demo.text value).
Proof.
  apply (demo_fetches _ _ _ _
           {| StoreBackend := "etcd"; Uri := "localhost:2379"; BasePath := "cni/";
              StoreConfig := ∅ |}).
  - vm_compute. reflexivity.
  - exact etcd_registered.
  - apply (lookup_singleton_eq (M := gmap string)).
Qed.

(** A setup when the store has no key for the container. *)
Lemma cmdAdd_changes_nothing_without_a_list_witness :
  let h := Demo.host ∅ [] false in
  let add := @cmdAdd h Demo.testcontainer Demo.boot in
  outcome add =
    Returned (Some "Error trying accessing value at key: cni/testcontainer") /\
  final add = Demo.boot /\
  Forall storeCall (events add) /\
  (outcome add = Exited 1 \/ exists err, outcome add = Returned (Some err)).
Proof.
  intros h add. split; [vm_compute; reflexivity|].
  apply (@cmdAdd_changes_nothing_without_a_list h Demo.testcontainer Demo.boot).
  intros data L (config & kv & _ & _ & Hnew & Hget) _.
  cbn in Hnew. injection Hnew as <-. cbn in Hget. discriminate.
Defined.

(** A setup on a scratch directory that cannot be written. *)
Lemma unsaved_list_is_not_delegated_witness :
  let h := Demo.host {[ "cni/testcontainer" := Demo.text Demo.two_networks ]} [] true in
  let add := @cmdAdd h Demo.testcontainer Demo.boot in
  outcome add =
    Returned (Some "Could not save generated cni configs: read-only file system") /\
  final add = Demo.boot /\
  addCalls (events add) = [] /\
  (forall x, PrintCall x ∉ events add).
Proof.
  intros h add.
  apply (@unsaved_list_is_not_delegated h Demo.testcontainer Demo.boot
           (Demo.text Demo.two_networks) (Demo.parsed Demo.two_networks)
           "read-only file system").
  - apply store_fetches.
  - vm_compute. reflexivity.
  - vm_compute. reflexivity.
Defined.

(** The documented networks when the [loopback] plugin fails: [bridge] is
    attached and stays attached, and the scratch file stays. *)
Lemma failed_attach_is_not_rolled_back_witness :
  let h := Demo.host {[ "cni/testcontainer" := Demo.text Demo.two_networks ]}
             ["loopback"] false in
  let add := @cmdAdd h Demo.testcontainer Demo.boot in
  outcome add = Returned (Some "failed to add loopback") /\
  (addCalls (events add)).*1 = ["bridge"; "loopback"] /\
  delCalls (events add) = [] /\
  (forall x, PrintCall x ∉ events add) /\
  plugins (final add) = ["bridge"] /\
  files (final add) !! Demo.scratch = Some (Demo.text Demo.two_networks).
Proof.
  intros h add.
  destruct (Demo.parsed Demo.two_networks) as [|good [|bad rest]] eqn:HL;
    try discriminate.
  destruct (@failed_attach_is_not_rolled_back h Demo.testcontainer Demo.boot
              (Demo.text Demo.two_networks) [good] bad rest
              ["result of bridge"] "loopback" (Demo.text "{'type':'loopback'}")
              "failed to add loopback")
    as (Hout & _ & Hdel & Hprint & _ & Hfile).
  - apply store_fetches.
  - change ([good] ++ bad :: rest) with (good :: bad :: rest).
    rewrite <- HL. vm_compute. reflexivity.
  - reflexivity.
  - reflexivity.
  - injection HL as <- _ _. vm_compute. reflexivity.
  - injection HL as _ <- _. vm_compute. reflexivity.
  - injection HL as <- _ _. vm_compute. reflexivity.
  - split; [exact Hout|]. split; [vm_compute; reflexivity|].
    split; [exact Hdel|]. split; [exact Hprint|].
    split; [vm_compute; reflexivity | exact Hfile].
Defined.

(** The teardown of the documented networks when the [loopback] plugin
    fails. *)
Lemma failed_detach_stops_teardown_witness :
  let h := Demo.host {[ "cni/testcontainer" := Demo.text Demo.two_networks ]}
             ["loopback"] false in
  let s := {| files := {[ Demo.scratch := Demo.text Demo.two_networks ]};
              plugins := ["bridge"; "loopback"] |} in
  let del := @cmdDel h Demo.testcontainer s in
  outcome del = Returned (Some "failed to delete loopback") /\
  (delCalls (events del)).*1 = ["bridge"; "loopback"] /\
  plugins (final del) = ["loopback"] /\
  files (final del) = delete Demo.scratch (files s).
Proof.
  intros h s del.
  destruct (Demo.parsed Demo.two_networks) as [|good [|bad rest]] eqn:HL;
    try discriminate.
  destruct (@failed_detach_stops_teardown h Demo.testcontainer s
              (Demo.text Demo.two_networks) [good] bad rest
              ["loopback"] "loopback" (Demo.text "{'type':'loopback'}")
              "failed to delete loopback")
    as (Hout & _ & _ & Hfiles).
  - apply (lookup_singleton_eq (M := gmap string)).
  - change ([good] ++ bad :: rest) with (good :: bad :: rest).
    rewrite <- HL. vm_compute. reflexivity.
  - injection HL as <- _ _. vm_compute. reflexivity.
  - injection HL as _ <- _. vm_compute. reflexivity.
  - vm_compute. reflexivity.
  - split; [exact Hout|]. split; [vm_compute; reflexivity|].
    split; [vm_compute; reflexivity | exact Hfiles].
Defined.

(** The teardown of a container set up from the documented networks, asked
    for with a standard input that is no configuration at all. *)
Lemma teardown_ignores_configuration_witness :
  let h := Demo.etcd Demo.two_networks in
  let s := final (@cmdAdd h Demo.testcontainer Demo.boot) in
  @cmdDel h Demo.testcontainer s = @cmdDel h (Demo.args "testcontainer" "no json") s /\
  Forall teardownCall (events (@cmdDel h Demo.testcontainer s)).
Proof.
  intros h s.
  apply (@teardown_ignores_configuration h Demo.testcontainer
           (Demo.args "testcontainer" "no json") s).
  reflexivity.
Defined.

(** The documented setup, then the teardown. *)
Lemma teardown_after_setup_fails_only_in_a_plugin_witness :
  let h := Demo.etcd Demo.two_networks in
  let add := @cmdAdd h Demo.testcontainer Demo.boot in
  let del := @cmdDel h Demo.testcontainer
               {| files := files (final add); plugins := ["bridge"; "loopback"] |} in
  outcome add = Returned None /\
  events del !! 0 = Some (ReadFileCall (scratchPath (ContainerID Demo.testcontainer))) /\
  (outcome del = Returned None \/
   exists err t c p',
     DelegateDelCall t c ∈ events del /\
     (DelegateDel t c p').1 = Some err /\
     outcome del = Returned (Some err)).
Proof.
  intros h add del.
  assert (Hok : outcome add = Returned None) by (vm_compute; reflexivity).
  split; [exact Hok|].
  apply (@teardown_after_setup_fails_only_in_a_plugin h Demo.testcontainer Demo.boot
           (Demo.text Demo.two_networks) (Demo.parsed Demo.two_networks)
           ["bridge"; "loopback"]).
  - apply etcd_fetches.
  - vm_compute. reflexivity.
  - exact Hok.
Defined.


(** The setup and the teardown of [testcontainer] leave the scratch copy of
    [other] alone. *)
Lemma plain_containers_are_kept_apart_witness :
  let h := Demo.etcd Demo.two_networks in
  let s := {| files := {[ "/var/lib/cni/libkv/other" := Demo.text "[]" ]};
              plugins := [] |} in
  scratchPath "other" = "/var/lib/cni/libkv/other" /\
  scratchPath "other" <> scratchPath (ContainerID Demo.testcontainer) /\
  files (final (@cmdAdd h Demo.testcontainer s)) !! scratchPath "other"
    = files s !! scratchPath "other" /\
  files (final (@cmdDel h Demo.testcontainer s)) !! scratchPath "other"
    = files s !! scratchPath "other".
Proof.
  intros h s.
  apply (@plain_containers_are_kept_apart h Demo.testcontainer s "other").
  - reflexivity.
  - reflexivity.
  - discriminate.
Defined.

(** The container set up as [testcontainer] and torn down as
    [./testcontainer]. *)
Lemma dot_spelling_shares_the_scratch_file_witness :
  let h := Demo.etcd Demo.two_networks in
  let s := final (@cmdAdd h Demo.testcontainer Demo.boot) in
  let args' := Demo.args "./testcontainer" Demo.etcd_conf in
  files s !! Demo.scratch = Some (Demo.text Demo.two_networks) /\
  scratchPath (ContainerID args') = scratchPath (ContainerID Demo.testcontainer) /\
  @cmdDel h args' s = @cmdDel h Demo.testcontainer s /\
  files (final (@cmdDel h args' s)) !! scratchPath (ContainerID Demo.testcontainer) = None.
Proof.
  intros h s args'. split; [vm_compute; reflexivity|].
  apply (@dot_spelling_shares_the_scratch_file h Demo.testcontainer args' s).
  reflexivity.
Defined.

(** A setup for the identifier [../../../../tmp/x] writes [/tmp/x]. *)
Lemma dotdot_spelling_leaves_the_state_directory_witness :
  let h := Demo.host {[ "cni/../../../../tmp/x" := Demo.text "[]" ]} [] false in
  let args := Demo.args "../../../../tmp/x" Demo.etcd_conf in
  let add := @cmdAdd h args Demo.boot in
  Clean "/tmp/x" = "/tmp/x" /\
  scratchPath (ContainerID args) = Clean "/tmp/x" /\
  WriteFileCall (Clean "/tmp/x") (Demo.text "[]") mode_0600 ∈ events add /\
  files (final add) !! Clean "/tmp/x" = Some (Demo.text "[]").
Proof.
  intros h args add. split; [reflexivity|].
  apply (@dotdot_spelling_leaves_the_state_directory h args Demo.boot
           (Demo.text "[]") [] "tmp/x").
  - reflexivity.
  - apply (demo_fetches _ _ _ _
             {| StoreBackend := "etcd"; Uri := "localhost:2379"; BasePath := "cni/";
                StoreConfig := ∅ |}).
    + vm_compute. reflexivity.
    + exact etcd_registered.
    + apply (lookup_singleton_eq (M := gmap string)).
  - reflexivity.
  - reflexivity.
  - reflexivity.
Defined.

(** Two setups that ask for [cni/testcontainer]. *)
Lemma one_key_one_container_witness :
  let h := Demo.etcd Demo.two_networks in
  let s' := {| files := ∅; plugins := ["bridge"] |} in
  GetCall "cni/testcontainer" ∈ events (@cmdAdd h Demo.testcontainer Demo.boot) /\
  GetCall "cni/testcontainer" ∈ events (@cmdAdd h Demo.testcontainer s') /\
  ContainerID Demo.testcontainer = "testcontainer".
Proof.
  intros h s'.
  assert (Hin : GetCall "cni/testcontainer"
                  ∈ events (@cmdAdd h Demo.testcontainer Demo.boot)).
  { apply list_elem_of_lookup. exists 1. vm_compute. reflexivity. }
  assert (Hin' : GetCall "cni/testcontainer"
                   ∈ events (@cmdAdd h Demo.testcontainer s')).
  { apply list_elem_of_lookup. exists 1. vm_compute. reflexivity. }
  split; [exact Hin|]. split; [exact Hin'|].
  exact (@one_key_one_container h Demo.testcontainer Demo.testcontainer
           Demo.boot s' "cni/testcontainer" eq_refl Hin Hin').
Defined.

(** The prefix [cni] and the prefix [cni/]. *)
Lemma trailing_separator_is_immaterial_witness :
  let h := Demo.etcd Demo.two_networks in
  let args := Demo.args "testcontainer"
                "{ 'storeBackend': 'etcd', 'uri': 'localhost:2379', 'basePath': 'cni' }" in
  let args' := Demo.testcontainer in
  @loadPluginConfig h (StdinData args) = @loadPluginConfig h (StdinData args') /\
  @cmdAdd h args Demo.boot = @cmdAdd h args' Demo.boot.
Proof.
  intros h args args'.
  apply (@trailing_separator_is_immaterial h args args' Demo.boot
           {| StoreBackend := "etcd"; Uri := "localhost:2379"; BasePath := "cni";
              StoreConfig := ∅ |}
           {| StoreBackend := "etcd"; Uri := "localhost:2379"; BasePath := "cni/";
              StoreConfig := ∅ |}).
  - reflexivity.
  - vm_compute. reflexivity.
  - vm_compute. reflexivity.
  - reflexivity.
  - reflexivity.
  - reflexivity.
  - reflexivity.
  - reflexivity.
Defined.

(** The documented setup, with and without a scratch copy left by an
    earlier setup. *)
Lemma setup_reads_no_file_witness :
  let h := Demo.etcd Demo.two_networks in
  let s' := {| files := {[ Demo.scratch := Demo.text "[]" ]}; plugins := [] |} in
  outcome (@cmdAdd h Demo.testcontainer Demo.boot)
    = outcome (@cmdAdd h Demo.testcontainer s') /\
  events (@cmdAdd h Demo.testcontainer Demo.boot)
    = events (@cmdAdd h Demo.testcontainer s') /\
  plugins (final (@cmdAdd h Demo.testcontainer Demo.boot))
    = plugins (final (@cmdAdd h Demo.testcontainer s')).
Proof.
  intros h s'.
  apply (@setup_reads_no_file h Demo.testcontainer Demo.boot s'). reflexivity.
Defined.

